(** * tap-sumologic: the query-execution and record-shaping engine

    A shallow embedding of [tap_sumologic/sumologic_sdk.py],
    [tap_sumologic/tap.py] and [tap_sumologic/streams.py].

    - JSON payloads are values of [json]; a Python [dict] is a
      [gmap string json], so [d[k]], [del d[k]] and [{**a, **b}] are
      lookup, [delete] and map union.
    - A Python exception is a value of [exn]; a call that may raise
      returns a [result].
    - The Sumo Logic API is a [Server]: one function per endpoint.  The
      status endpoint also receives the number of the poll, so that a job
      may change state between two identical requests.
    - A [while] loop is a [Fixpoint] on a fuel argument and returns
      [None] when the fuel is used up before the loop has left. *)

From stdpp Require Import gmap strings list fin_maps.
From Stdlib Require Import ZArith.

#[local] Set Warnings "-clear-no-such-hyp".

(** ** JSON values and Python exceptions *)

#[warnings="-register-all"]
Inductive json : Type :=
  | JNull
  | JBool (b : bool)
  | JNum (z : Z)
  | JStr (s : string)
  | JArr (l : list json)
  | JObj (m : gmap string json).

(** [RequestError payload] is the [Exception] that the SDK raises with the
    message "Request error: " followed by the payload. *)
Inductive exn : Type :=
  | KeyError (k : string)
  | IndexError
  | TypeError
  | HTTPError (body : json)
  | ValueError (msg : string)
  | Exception (msg : string)
  | RequestError (payload : json).

Inductive result (A : Type) : Type :=
  | Ok (a : A)
  | Raise (e : exn).
Arguments Ok {A} a.
Arguments Raise {A} e.

#[global] Instance result_ret : MRet result := @Ok.
#[global] Instance result_bind : MBind result := λ A B f r,
  match r with
  | Ok a => f a
  | Raise e => Raise e
  end.

#[global] Instance result_fmap : FMap result := λ A B f r,
  match r with
  | Ok a => Ok (f a)
  | Raise e => Raise e
  end.

Module Py.

(** [v == s] for a string literal [s]. *)
Definition eq_str (v : json) (s : string) : bool :=
  match v with
  | JStr t => bool_decide (t = s)
  | _ => false
  end.

(** [v[k]] for a string key. *)
Definition getitem (v : json) (k : string) : result json :=
  match v with
  | JObj m =>
      match m !! k with
      | Some x => Ok x
      | None => Raise (KeyError k)
      end
  | _ => Raise TypeError
  end.

(** [v[0]]. *)
Definition getitem0 (v : json) : result json :=
  match v with
  | JArr l =>
      match l with
      | x :: _ => Ok x
      | [] => Raise IndexError
      end
  | JStr s =>
      match s with
      | String c _ => Ok (JStr (String c EmptyString))
      | EmptyString => Raise IndexError
      end
  | JObj _ => Raise (KeyError "0")
  | _ => Raise TypeError
  end.

(** [del v[k]]; the result is the object after the deletion. *)
Definition delitem (v : json) (k : string) : result json :=
  match v with
  | JObj m =>
      match m !! k with
      | Some _ => Ok (JObj (delete k m))
      | None => Raise (KeyError k)
      end
  | _ => Raise TypeError
  end.

Fixpoint chars (s : string) : list json :=
  match s with
  | EmptyString => []
  | String c r => JStr (String c EmptyString) :: chars r
  end.

(** [for x in v]: the elements of a list, the characters of a string,
    the keys of a dict (Python walks them in insertion order, which a
    [gmap] does not record; nothing below depends on that order). *)
Definition iter (v : json) : result (list json) :=
  match v with
  | JArr l => Ok l
  | JStr s => Ok (chars s)
  | JObj m => Ok (JStr <$> (map_to_list m).*1)
  | _ => Raise TypeError
  end.

(** [len(v)]. *)
Definition len (v : json) : result Z :=
  match v with
  | JArr l => Ok (Z.of_nat (length l))
  | JStr s => Ok (Z.of_nat (String.length s))
  | JObj m => Ok (Z.of_nat (size m))
  | _ => Raise TypeError
  end.

(** [count < v] for an integer [count]; a [bool] is an [int] in Python. *)
Definition int_lt (count : Z) (v : json) : result bool :=
  match v with
  | JNum z => Ok (count <? z)%Z
  | JBool b => Ok (count <? (if b then 1 else 0))%Z
  | _ => Raise TypeError
  end.

(** [{**v, **custom}] for a dict [custom]: [v] has to be a mapping, and
    the entries of [custom] win. *)
Definition merge (v : json) (custom : gmap string json) : result json :=
  match v with
  | JObj m => Ok (JObj (custom ∪ m))
  | _ => Raise TypeError
  end.

(** [s[:-1]]. *)
Definition drop_last (s : string) : string :=
  String.substring 0 (String.length s - 1) s.

Definition of_opt {A} (f : A → json) (o : option A) : json :=
  match o with
  | Some a => f a
  | None => JNull
  end.

(** [if v:] *)
Definition truthy (v : json) : bool :=
  match v with
  | JNull => false
  | JBool b => b
  | JNum z => negb (z =? 0)%Z
  | JStr s => negb (bool_decide (s = ""))
  | JArr l => negb (bool_decide (l = []))
  | JObj m => negb (bool_decide (size m = 0))
  end.

(** A value used as the key of a [dict].  The API's field names are
    strings; a list or an object is unhashable and raises [TypeError],
    and this model raises it for every other value that is not a
    string as well. *)
Definition as_key (v : json) : result string :=
  match v with
  | JStr s => Ok s
  | _ => Raise TypeError
  end.

(** [s[-1:]] *)
Definition last_char (s : string) : string :=
  String.substring (String.length s - 1) 1 s.

Fixpoint foldM {A B} (f : B → A → result B) (b : B) (l : list A)
    : result B :=
  match l with
  | [] => Ok b
  | a :: l' => b' ← f b a; foldM f b' l'
  end.

End Py.

(** ** The API

    [get] and [post] of the SDK raise (through [raise_for_status]) on a
    4xx or 5xx answer and hand the decoded body to the caller otherwise:
    an endpoint answers with a [result json]. *)

Record Server : Type := {
  (** [POST /search/jobs] with the request body *)
  post_search_jobs : json → result json;
  (** [GET /search/jobs/{id}]: the job id and the number of the poll *)
  get_search_job : json → nat → result json;
  (** [GET /search/jobs/{id}/{query_type}?limit&offset] *)
  get_search_job_results : json → string → option Z → Z → result json;
  (** [POST /metricsQueries] with the request body *)
  post_metrics_queries : json → result json
}.

Definition DONE : string := "DONE GATHERING RESULTS".
Definition GATHERING : string := "GATHERING RESULTS".
Definition CANCELLED : string := "CANCELLED".

(** ** sumologic_sdk.py *)

Module SumoLogic.
Section SDK.

Variable srv : Server.

Definition search_job (query from_time to_time time_zone : string)
    (by_receipt_time : bool) (auto_parsing_mode : string) : result json :=
  let params : gmap string json :=
    {[ "query" := JStr query;
       "from" := JStr from_time;
       "to" := JStr to_time;
       "timeZone" := JStr time_zone;
       "byReceiptTime" := JBool by_receipt_time;
       "autoParsingMode" := JStr auto_parsing_mode ]} in
  post_search_jobs srv (JObj params).

(** [n] is the number of status requests made before this one. *)
Definition search_job_status (search_job : json) (n : nat) : result json :=
  id ← Py.getitem search_job "id";
  get_search_job srv id n.

Definition search_job_records (search_job : json) (query_type : string)
    (limit : option Z) (offset : Z) : result json :=
  id ← Py.getitem search_job "id";
  get_search_job_results srv id query_type limit offset.

(** The query object of a metrics request: built with all five keys,
    the unset optional ones deleted afterwards. *)
Definition metrics_query_object (query : string) (quantization : option Z)
    (rollup : option string) (timeshift : option Z) : gmap string json :=
  let q0 : gmap string json :=
    {[ "rowId" := JStr "A";
       "query" := JStr query;
       "quantization" := Py.of_opt JNum quantization;
       "rollup" := Py.of_opt JStr rollup;
       "timeshift" := Py.of_opt JNum timeshift ]} in
  let q1 := if quantization is None then delete "quantization" q0 else q0 in
  let q2 := if rollup is None then delete "rollup" q1 else q1 in
  if timeshift is None then delete "timeshift" q2 else q2.

Definition time_boundary (t : string) : json :=
  JObj {[ "type" := JStr "Iso8601TimeRangeBoundary";
          "iso8601Time" := JStr (t +:+ ".00+00:00") ]}.

Definition metrics_query_params (query from_time to_time : string)
    (quantization : option Z) (rollup : option string)
    (timeshift : option Z) : json :=
  JObj {[ "queries" :=
            JArr [JObj (metrics_query_object query quantization rollup
                          timeshift)];
          "timeRange" :=
            JObj {[ "type" := JStr "BeginBoundedTimeRange";
                    "from" := time_boundary from_time;
                    "to" := time_boundary to_time ]} ]}.

Definition metrics_query (query from_time to_time : string)
    (quantization : option Z) (rollup : option string)
    (timeshift : option Z) : result json :=
  post_metrics_queries srv
    (metrics_query_params query from_time to_time quantization rollup
       timeshift).

(** [response["queryResult"][0]["timeSeriesList"]["timeSeries"]] *)
Definition time_series (response : json) : result json :=
  qr ← Py.getitem response "queryResult";
  q0 ← Py.getitem0 qr;
  tsl ← Py.getitem q0 "timeSeriesList";
  Py.getitem tsl "timeSeries".

(** The probe loop of [get_search_job_fields].  [left] is [2 - count]:
    the body adds one to [count] and leaves when it has reached 2, so
    the loop is entered with [left = 2] and the case [0] is never
    reached. *)
Fixpoint probe_poll (left : nat) (search_job : json) (n : nat)
    (status : json) : result json :=
  st ← Py.getitem status "state";
  if Py.eq_str st DONE then Ok status
  else if Py.eq_str st CANCELLED then Ok status
  else
    match left with
    | O => Ok status
    | S left' =>
        if bool_decide (left' = O) then Ok status
        else
          status' ← search_job_status search_job (S n);
          probe_poll left' search_job (S n) status'
    end.

Definition get_search_job_fields (q from_time to_time time_zone : string)
    (by_receipt_time : bool) (auto_parsing_mode query_type : string)
    : result json :=
  search_job ← search_job q from_time to_time time_zone by_receipt_time
                 auto_parsing_mode;
  status ← search_job_status search_job 0;
  status ← probe_poll 2 search_job 0 status;
  st ← Py.getitem status "state";
  if Py.eq_str st DONE || Py.eq_str st GATHERING then
    response ← search_job_records search_job query_type (Some 1%Z) 0%Z;
    Py.getitem response "fields"
  else Ok (JArr []).

Definition get_metrics_query_fields (query from_time to_time : string)
    (quantization : option Z) (rollup : option string)
    (timeshift : option Z) : result json :=
  metrics_query ← metrics_query query from_time to_time quantization
                    rollup timeshift;
  errors ← Py.getitem metrics_query "errors";
  errs ← Py.getitem errors "errors";
  n ← Py.len errs;
  if (0 <? n)%Z then Raise (RequestError errors)
  else time_series metrics_query.

(** A query type outside the three falls through both branches: the
    method returns [None]. *)
Definition get_sumologic_fields (q from_time to_time time_zone : string)
    (by_receipt_time : bool) (auto_parsing_mode query_type : string)
    (quantization : option Z) (rollup : option string)
    (timeshift : option Z) : result json :=
  if bool_decide (query_type ∈ ["records"; "messages"]) then
    get_search_job_fields q from_time to_time time_zone by_receipt_time
      auto_parsing_mode query_type
  else if bool_decide (query_type = "metrics") then
    get_metrics_query_fields q from_time to_time quantization rollup
      timeshift
  else Ok JNull.

End SDK.
End SumoLogic.

(** ** tap.py *)

Record TableConfig : Type := {
  query : string;
  table_name : string;
  query_type : string;
  primary_keys : list string;
  by_receipt_time : bool;
  auto_parsing_mode : string;
  quantization : option Z;
  rollup : option string;
  timeshift : option Z;
  (** [stream.get("schema")]: [None] without the entry *)
  schema : option json
}.

Record Config : Type := {
  access_id : string;
  access_key : string;
  root_url : string;
  start_date : string;
  end_date : string;
  time_zone : string;
  tables : list TableConfig
}.

(** What [SearchJobStream.__init__] stores. *)
Record SearchJobStream : Type := {
  stream_config : Config;
  stream_name : string;
  stream_query_type : string;
  stream_primary_keys : json;
  stream_schema : json;
  stream_query : string;
  stream_by_receipt_time : bool;
  stream_auto_parsing_mode : string;
  stream_quantization : option Z;
  stream_rollup : option string;
  stream_timeshift : option Z
}.

Module TapSumoLogic.
Section Tap.

Variable srv : Server.
(** [json.load] of the file at a path, and genson's
    [SchemaBuilder().add_schema(s); to_schema()]: neither belongs to
    this repository, and either may raise. *)
Variable load_schema_file : string → result json.
Variable genson_schema : json → result json.

Definition base_type : list string := ["null"; "string"].

(** The object [{"type": types}]. *)
Definition type_schema (types : list string) : json :=
  JObj {[ "type" := JArr (JStr <$> types) ]}.

(** The type list of one field: a deep copy of [base_type], extended
    according to the reported type.  The [boolean] branch is commented
    out in the source. *)
Definition field_types (field_type : json) : list string :=
  if Py.eq_str field_type "int" then base_type ++ ["integer"]
  else if Py.eq_str field_type "long" then base_type ++ ["integer"]
  else if Py.eq_str field_type "double" then base_type ++ ["number"]
  else base_type.

(** One round of [for field in fields], on the pair of [schema] and
    [key_properties]. *)
Definition add_field (acc : gmap string json * list string)
    (field : json) : result (gmap string json * list string) :=
  field_name ← Py.getitem field "name";
  field_type ← Py.getitem field "fieldType";
  key_field ← Py.getitem field "keyField";
  name ← Py.as_key field_name;
  let schema := <[name := type_schema (field_types field_type)]> acc.1 in
  let key_properties :=
    if Py.truthy key_field then acc.2 ++ [name] else acc.2 in
  Ok (schema, key_properties).

(** Lines 247 to 293 of [get_schema_for_table]: the schema built from
    the probe's answer. *)
Definition schema_of_fields (query_type : string) (fields : json)
    : result json :=
  if bool_decide (query_type ∈ ["records"; "messages"]) then
    fs ← Py.iter fields;
    acc ← Py.foldM add_field (∅, []) fs;
    let schema :=
      <["time_zone" := type_schema base_type]>
        (<["end_date" := type_schema base_type]>
           (<["start_date" := type_schema base_type]> acc.1)) in
    let key_properties :=
      acc.2 ++ ["start_date"; "end_date"; "time_zone"] in
    let key_properties :=
      if bool_decide (query_type = "messages")
      then key_properties ++ ["_messagetime"; "_messageid"]
      else key_properties in
    Ok (JObj {[ "type" := JStr "object";
                "properties" := JObj schema;
                "key_properties" := JArr (JStr <$> key_properties) ]})
  else if bool_decide (query_type = "metrics") then
    Ok (JObj {[ "type" := JStr "object";
                "properties" :=
                  JObj {[ "metricDefinition" :=
                            type_schema ["object"; "null"];
                          "points" := type_schema ["object"; "null"] ]};
                "key_properties" :=
                  JArr [JStr "metricDefinition"; JStr "points"] ]})
  else Ok (JObj ∅).

(** The constructor of the SDK refuses an endpoint that ends with a
    slash. *)
Definition endpoint_check (url : string) : result unit :=
  if bool_decide (Py.last_char url = "/")
  then Raise (Exception "Endpoint should not end with a slash character")
  else Ok ().

Definition get_schema_for_table (config : Config)
    (table_config : TableConfig) : result json :=
  let q :=
    if bool_decide (query_type table_config ∈ ["records"; "messages"])
    then query table_config +:+ " | limit 1"
    else query table_config in
  _ ← endpoint_check (root_url config);
  fields ← SumoLogic.get_sumologic_fields srv q (start_date config)
             (end_date config) (time_zone config)
             (by_receipt_time table_config)
             (auto_parsing_mode table_config) (query_type table_config)
             (quantization table_config) (rollup table_config)
             (timeshift table_config);
  schema_of_fields (query_type table_config) fields.

(** [stream["primary_keys"] or schema["key_properties"]]: the right
    operand is only evaluated when the left one is empty. *)
Definition stream_keys (primary_keys : list string) (schema : json)
    : result json :=
  match primary_keys with
  | [] => Py.getitem schema "key_properties"
  | _ :: _ => Ok (JArr (JStr <$> primary_keys))
  end.

(** One round of [for stream in self.config["tables"]]: a [str] is the
    path of a schema file, a [dict] is a schema for genson, and with
    anything else, or without the entry, the schema is inferred. *)
Definition discover_stream (config : Config) (stream : TableConfig)
    : result SearchJobStream :=
  schema ←
    match schema stream with
    | Some (JStr path) => load_schema_file path
    | Some (JObj m) => genson_schema (JObj m)
    | _ => get_schema_for_table config stream
    end;
  if bool_decide (query_type stream ∈ ["records"; "messages"; "metrics"])
  then
    keys ← stream_keys (primary_keys stream) schema;
    Ok {| stream_config := config;
          stream_name := table_name stream;
          stream_query_type := query_type stream;
          stream_primary_keys := keys;
          stream_schema := schema;
          stream_query := query stream;
          stream_by_receipt_time := by_receipt_time stream;
          stream_auto_parsing_mode := auto_parsing_mode stream;
          stream_quantization := quantization stream;
          stream_rollup := rollup stream;
          stream_timeshift := timeshift stream |}
  else Raise (ValueError ("Invalid query_type: " +:+ query_type stream
                          +:+ ". Must be one of 'records' or 'messages'.")).

Definition discover_streams (config : Config)
    : result (list SearchJobStream) :=
  mapM (discover_stream config) (tables config).

End Tap.
End TapSumoLogic.

(** ** streams.py *)

(** What [SearchJobStream.get_records] asks of [self.conn]. *)
Record Conn : Type := {
  conn_search_job :
    string → string → string → string → bool → string → result json;
  conn_search_job_status : json → nat → result json;
  conn_search_job_records : json → string → option Z → Z → result json;
  conn_metrics_query : string → string → string → option Z →
                       option string → option Z → result json
}.

(** Modelled from the spec: [self.conn] is declared by the base class
    [SumoLogicStream] of [tap_sumologic/client.py], which is not among the
    sources.  It is the QueryClient of the spec, the "stateless HTTP
    wrapper around four API operations": the SDK's [SumoLogic] class on
    the server. *)
Definition conn (srv : Server) : Conn := {|
  conn_search_job := SumoLogic.search_job srv;
  conn_search_job_status := SumoLogic.search_job_status srv;
  conn_search_job_records := SumoLogic.search_job_records srv;
  conn_metrics_query := SumoLogic.metrics_query srv
|}.

Module Stream.
Section GetRecords.

Variable srv : Server.
Variable self : SearchJobStream.
(** [datetime.utcnow().strftime(...)], read once at the start of
    [get_records]. *)
Variable now_datetime : string.

Definition limit : Z := 10000.

Definition custom_columns : gmap string json :=
  {[ "start_date" := JStr (start_date (stream_config self));
     "end_date" := JStr (end_date (stream_config self));
     "time_zone" := JStr (time_zone (stream_config self));
     "_SDC_EXTRACTED_AT" := JStr now_datetime;
     "_SDC_BATCHED_AT" := JStr now_datetime;
     "_SDC_DELETED_AT" := JNull ]}.

(** [f"{self.query_type[:-1]}Count"] *)
Definition count_key : string :=
  Py.drop_last (stream_query_type self) +:+ "Count".

(** The polling loop, entered with the [n]-th status in [status]. *)
Fixpoint poll (fuel : nat) (search_job : json) (n : nat) (status : json)
    : option (result json) :=
  match fuel with
  | O => None
  | S fuel' =>
      match Py.getitem status "state" with
      | Raise e => Some (Raise e)
      | Ok st =>
          if Py.eq_str st DONE then Some (Ok status)
          else if Py.eq_str st CANCELLED then Some (Ok status)
          else
            match
              status' ← conn_search_job_status (conn srv) search_job (S n);
              Py.delitem status' "histogramBuckets"
            with
            | Raise e => Some (Raise e)
            | Ok status' => poll fuel' search_job (S n) status'
            end
      end
  end.

(** [records.append({**rec["map"], **custom_columns})] for one [rec]. *)
Definition shape (rec : json) : result json :=
  m ← Py.getitem rec "map";
  Py.merge m custom_columns.

(** One page: the request, the rows shaped one after the other, and
    [len(recs)]. *)
Definition fetch_page (search_job : json) (count : Z)
    : result (list json * Z) :=
  response ← conn_search_job_records (conn srv) search_job
               (stream_query_type self) (Some limit) count;
  recs ← Py.getitem response (stream_query_type self);
  rows ← Py.iter recs;
  shaped ← mapM shape rows;
  n ← Py.len recs;
  Ok (shaped, n).

(** The pagination loop on the pair of [count] and [records]; the pair
    at the exit is returned. *)
Fixpoint paginate (fuel : nat) (search_job record_count : json)
    (count : Z) (records : list json) : option (result (Z * list json)) :=
  match fuel with
  | O => None
  | S fuel' =>
      match Py.int_lt count record_count with
      | Raise e => Some (Raise e)
      | Ok false => Some (Ok (count, records))
      | Ok true =>
          match fetch_page search_job count with
          | Raise e => Some (Raise e)
          | Ok (shaped, n) =>
              if (0 <? n)%Z
              then paginate fuel' search_job record_count (count + n)%Z
                     (records ++ shaped)
              else Some (Ok (count, records ++ shaped))
          end
      end
  end.

(** The branch of [get_records] for messages and records. *)
Definition search_records (fuel : nat) : option (result (list json)) :=
  match
    search_job ← conn_search_job (conn srv) (stream_query self)
                   (start_date (stream_config self))
                   (end_date (stream_config self))
                   (time_zone (stream_config self))
                   (stream_by_receipt_time self)
                   (stream_auto_parsing_mode self);
    status ← conn_search_job_status (conn srv) search_job 0;
    Ok (search_job, status)
  with
  | Raise e => Some (Raise e)
  | Ok (search_job, status) =>
      match poll fuel search_job 0 status with
      | None => None
      | Some (Raise e) => Some (Raise e)
      | Some (Ok status) =>
          match Py.getitem status "state" with
          | Raise e => Some (Raise e)
          | Ok st =>
              if Py.eq_str st DONE then
                match Py.getitem status count_key with
                | Raise e => Some (Raise e)
                | Ok record_count =>
                    match paginate fuel search_job record_count 0 [] with
                    | None => None
                    | Some (Raise e) => Some (Raise e)
                    | Some (Ok (_, records)) => Some (Ok records)
                    end
                end
              else Some (Ok [])
          end
      end
  end.

(** The branch of [get_records] for metrics. *)
Definition metrics_records : result (list json) :=
  response ← conn_metrics_query (conn srv) (stream_query self)
               (start_date (stream_config self))
               (end_date (stream_config self))
               (stream_quantization self) (stream_rollup self)
               (stream_timeshift self);
  records ← SumoLogic.time_series response;
  Py.iter records.

(** The rows that [get_records] yields, in order; every row is yielded
    after the last request has been answered, so an exception leaves no
    row behind.  A query type outside the three yields nothing. *)
Definition get_records (fuel : nat) : option (result (list json)) :=
  if bool_decide (stream_query_type self ∈ ["messages"; "records"]) then
    search_records fuel
  else if bool_decide (stream_query_type self = "metrics") then
    Some metrics_records
  else Some (Ok []).

End GetRecords.
End Stream.

(** * Statements: descriptors, scripted servers and predicates *)

(** ** Field descriptors and inferred schemas *)

(** A field descriptor as the API documents it: a name, a reported type
    and a key flag. *)
Record FieldDescriptor : Type := {
  fd_name : string;
  fd_type : string;
  fd_key : bool
}.

(** [v] is a JSON object that carries the three entries of [fd] (and
    possibly others). *)
Definition describes (fd : FieldDescriptor) (v : json) : Prop :=
  ∃ m : gmap string json,
    v = JObj m
    ∧ m !! "name" = Some (JStr (fd_name fd))
    ∧ m !! "fieldType" = Some (JStr (fd_type fd))
    ∧ m !! "keyField" = Some (JBool (fd_key fd)).

Definition descriptor (fd : FieldDescriptor) : json :=
  JObj {[ "name" := JStr (fd_name fd);
          "fieldType" := JStr (fd_type fd);
          "keyField" := JBool (fd_key fd) ]}.

(** The type list that the spec gives for a reported type. *)
Definition spec_types (t : string) : list string :=
  if decide (t = "int" ∨ t = "long") then ["null"; "string"; "integer"]
  else if decide (t = "double") then ["null"; "string"; "number"]
  else ["null"; "string"].

(** [schema] after the loop over the fields. *)
Definition properties_of (fds : list FieldDescriptor)
    (schema : gmap string json) : gmap string json :=
  foldl (λ s fd,
           <[fd_name fd := TapSumoLogic.type_schema (spec_types (fd_type fd))]>
             s)
    schema fds.

(** [key_properties] after the loop over the fields. *)
Definition keys_of (fds : list FieldDescriptor) : list string :=
  fd_name <$> filter (λ fd, fd_key fd) fds.

(** The keys of the properties of an inferred records or messages
    schema. *)
Definition inferred_properties (fds : list FieldDescriptor)
    : gmap string json :=
  <["time_zone" := TapSumoLogic.type_schema TapSumoLogic.base_type]>
    (<["end_date" := TapSumoLogic.type_schema TapSumoLogic.base_type]>
       (<["start_date" := TapSumoLogic.type_schema TapSumoLogic.base_type]>
          (properties_of fds ∅))).

(** ** Scripted servers, for the concrete runs *)

(** A server that hands out [job], answers the [n]-th status request with
    [statuses n], a results request with [results] and a metrics request
    with [metrics]. *)
Definition scripted (job : json) (statuses : nat → result json)
    (results : string → option Z → Z → result json)
    (metrics : json → result json) : Server := {|
  post_search_jobs _ := Ok job;
  get_search_job _ n := statuses n;
  get_search_job_results _ query_type limit offset :=
    results query_type limit offset;
  post_metrics_queries := metrics
|}.

Definition job1 : json := JObj {[ "id" := JStr "J1" ]}.

(** A status payload with its histogram. *)
Definition status_of (state : string) (counts : gmap string json) : json :=
  JObj (<["state" := JStr state]>
          (<["histogramBuckets" := JArr []]> counts)).

(** A status payload without the histogram. *)
Definition bare_status (state : string) (counts : gmap string json) : json :=
  JObj (<["state" := JStr state]> counts).

Definition no_results : string → option Z → Z → result json :=
  λ _ _ _, Ok (JObj ∅).

Definition no_metrics : json → result json := λ _, Ok (JObj ∅).

Definition sample_config (ts : list TableConfig) : Config := {|
  access_id := "id";
  access_key := "key";
  root_url := "https://api.sumologic.com/api";
  start_date := "2024-01-01T00:00:00";
  end_date := "2024-01-02T00:00:00";
  time_zone := "UTC";
  tables := ts
|}.

Definition sample_table (qt : string) (keys : list string) : TableConfig := {|
  query := "_sourceCategory=prod";
  table_name := "prod";
  query_type := qt;
  primary_keys := keys;
  by_receipt_time := false;
  auto_parsing_mode := "intelligent";
  quantization := None;
  rollup := None;
  timeshift := None;
  schema := None
|}.

Definition sample_stream (qt : string) : SearchJobStream := {|
  stream_config := sample_config [sample_table qt []];
  stream_name := "prod";
  stream_query_type := qt;
  stream_primary_keys := JArr [];
  stream_schema := JNull;
  stream_query := "_sourceCategory=prod";
  stream_by_receipt_time := false;
  stream_auto_parsing_mode := "intelligent";
  stream_quantization := None;
  stream_rollup := None;
  stream_timeshift := None
|}.

Definition no_file : string → result json :=
  λ _, Raise (ValueError "no such file").

(** The probe of the host scenario: the job is done at once and reports
    the single key field host. *)
Definition host_probe : Server :=
  scripted job1
    (λ _, Ok (status_of DONE {[ "messageCount" := JNum 1 ]}))
    (λ _ _ _,
       Ok (JObj {[ "fields" :=
                     JArr [descriptor {| fd_name := "host";
                                         fd_type := "string";
                                         fd_key := true |}];
                   "messages" := JArr [] ]}))
    no_metrics.

(** ** Rows *)

(** [rec] is an element of a page that the server hands out for the
    stream's query type and page size. *)
Definition fetched_row (srv : Server) (self : SearchJobStream) (rec : json)
    : Prop :=
  ∃ (search_job : json) (offset : Z) (response recs : json)
    (rows : list json),
    conn_search_job_records (conn srv) search_job (stream_query_type self)
      (Some Stream.limit) offset = Ok response
    ∧ Py.getitem response (stream_query_type self) = Ok recs
    ∧ Py.iter recs = Ok rows
    ∧ rec ∈ rows.

(** [r] is the field map [m] of a fetched row, merged with the metadata
    block. *)
Definition shaped_from (srv : Server) (self : SearchJobStream)
    (now : string) (m : gmap string json) (r : json) : Prop :=
  ∃ rec : json,
    fetched_row srv self rec
    ∧ Py.getitem rec "map" = Ok (JObj m)
    ∧ r = JObj (Stream.custom_columns self now ∪ m).

Definition shaped (srv : Server) (self : SearchJobStream) (now : string)
    (r : json) : Prop :=
  ∃ m, shaped_from srv self now m r.

Definition metadata_columns : gset string :=
  {[ "start_date"; "end_date"; "time_zone"; "_SDC_EXTRACTED_AT";
     "_SDC_BATCHED_AT"; "_SDC_DELETED_AT" ]}.

(** The metadata block in a yielded row [r], which comes from the field
    map [m]. *)
Definition carries_metadata (self : SearchJobStream) (now : string)
    (m : gmap string json) (r : json) : Prop :=
  ∃ rm : gmap string json,
    r = JObj rm
    ∧ rm !! "start_date" = Some (JStr (start_date (stream_config self)))
    ∧ rm !! "end_date" = Some (JStr (end_date (stream_config self)))
    ∧ rm !! "time_zone" = Some (JStr (time_zone (stream_config self)))
    ∧ rm !! "_SDC_EXTRACTED_AT" = Some (JStr now)
    ∧ rm !! "_SDC_BATCHED_AT" = Some (JStr now)
    ∧ rm !! "_SDC_DELETED_AT" = Some JNull
    ∧ (∀ k, k ∉ metadata_columns → rm !! k = m !! k).

Definition row_a : json :=
  JObj {[ "map" := JObj {[ "host" := JStr "a"; "_count" := JStr "3" ]} ]}.
Definition row_b : json :=
  JObj {[ "map" := JObj {[ "host" := JStr "b"; "_count" := JStr "4" ]} ]}.

(** A finished job of two records, handed out in one page. *)
Definition two_rows : Server :=
  scripted job1
    (λ _, Ok (status_of DONE {[ "recordCount" := JNum 2 ]}))
    (λ query_type _ offset,
       Ok (JObj {[ query_type :=
                     JArr (if (offset =? 0)%Z then [row_a; row_b] else []) ]}))
    no_metrics.

(** A finished messages job whose probe reports the field host, and whose
    only row carries the field _raw and no host. *)
Definition raw_row : Server :=
  scripted job1
    (λ _, Ok (status_of DONE {[ "messageCount" := JNum 1 ]}))
    (λ _ _ offset,
       Ok (JObj {[ "fields" :=
                     JArr [descriptor {| fd_name := "host";
                                         fd_type := "string";
                                         fd_key := true |}];
                   "messages" :=
                     JArr (if (offset =? 0)%Z
                           then [JObj {[ "map" :=
                                           JObj {[ "_raw" := JStr "x" ]} ]}]
                           else []) ]}))
    no_metrics.

(** ** The two loops *)

(** The total count as the comparison [count < record_count] reads it. *)
Definition total_of (record_count : json) : Z :=
  match record_count with
  | JNum z => z
  | JBool b => if b then 1 else 0
  | _ => 0
  end%Z.

(** How the loop has left: by an exception, or with the offset [count] at
    or beyond the total, or after an empty page at offset [count]. *)
Definition halted (srv : Server) (self : SearchJobStream) (now : string)
    (search_job record_count : json) (r : result (Z * list json)) : Prop :=
  match r with
  | Raise _ => True
  | Ok (count, _) =>
      Py.int_lt count record_count = Ok false
      ∨ (Py.int_lt count record_count = Ok true
         ∧ Stream.fetch_page srv self now search_job count = Ok ([], 0%Z))
  end.

(** A finished job of fifteen records, handed out in one page. *)
Definition fifteen_rows : Server :=
  scripted job1
    (λ _, Ok (status_of DONE {[ "recordCount" := JNum 15 ]}))
    (λ query_type _ offset,
       Ok (JObj {[ query_type :=
                     JArr (if (offset =? 0)%Z then replicate 15 row_a
                           else []) ]}))
    no_metrics.

Definition histogram : string := "histogramBuckets".

(** The payload reports a state that is neither of the two sentinels. *)
Definition non_terminal (status : json) : Prop :=
  ∃ st, Py.getitem status "state" = Ok st
        ∧ Py.eq_str st DONE = false
        ∧ Py.eq_str st CANCELLED = false.

Definition in_state (status : json) (state : string) : Prop :=
  Py.getitem status "state" = Ok (JStr state).

Definition has_histogram (status : json) : Prop :=
  ∃ m : gmap string json, status = JObj m ∧ is_Some (m !! histogram).

(** The payload as the loop holds it after [del status["histogramBuckets"]]. *)
Definition strip (status : json) : json :=
  match status with
  | JObj m => JObj (delete histogram m)
  | _ => status
  end.

(** The job that the run of [self] submits. *)
Definition submitted (srv : Server) (self : SearchJobStream) : result json :=
  SumoLogic.search_job srv (stream_query self)
    (start_date (stream_config self)) (end_date (stream_config self))
    (time_zone (stream_config self)) (stream_by_receipt_time self)
    (stream_auto_parsing_mode self).

(** The job is cancelled on the [k]-th status request, the status
    requests before it being answered with payloads that are not
    terminal. *)
Definition cancelled_at (srv : Server) (search_job : json) (k : nat) : Prop :=
  (∀ i, i < k →
        ∃ s, SumoLogic.search_job_status srv search_job i = Ok s
             ∧ non_terminal s)
  ∧ ∃ s, SumoLogic.search_job_status srv search_job k = Ok s
         ∧ in_state s CANCELLED.

(** Every payload fetched inside the loop, the [1]st to the [k]-th,
    carries the histogram. *)
Definition histograms_upto (srv : Server) (search_job : json) (k : nat)
    : Prop :=
  ∀ i s, 1 ≤ i ≤ k →
         SumoLogic.search_job_status srv search_job i = Ok s →
         has_histogram s.

(** The status endpoint of a scripted run: the [n]-th request is answered
    with the [n]-th payload, and with an error after the last. *)
Definition status_script (payloads : list json) (n : nat) : result json :=
  match payloads !! n with
  | Some s => Ok s
  | None => Raise (HTTPError (JStr "job not found"))
  end.

(** GATHERING, GATHERING, CANCELLED, every payload with its histogram. *)
Definition cancelled_run : Server :=
  scripted job1
    (status_script [status_of GATHERING ∅; status_of GATHERING ∅;
                    status_of CANCELLED ∅])
    no_results no_metrics.

(** The same states, the last payload without the histogram. *)
Definition cancelled_bare : Server :=
  scripted job1
    (status_script [status_of GATHERING ∅; status_of GATHERING ∅;
                    bare_status CANCELLED ∅])
    no_results no_metrics.

(** [srv], with the histogram taken out of the answer to the first status
    request, the one made before the loop. *)
Definition without_initial_histogram (srv : Server) : Server := {|
  post_search_jobs := post_search_jobs srv;
  get_search_job id n :=
    match n with
    | O => strip <$> get_search_job srv id O
    | S _ => get_search_job srv id n
    end;
  get_search_job_results := get_search_job_results srv;
  post_metrics_queries := post_metrics_queries srv
|}.

(** ** Metrics answers *)

Definition series_a : json :=
  JObj {[ "metricDefinition" := JObj {[ "metric" := JStr "cpu" ]};
          "points" := JObj {[ "values" := JArr [JNum 1; JNum 2] ]} ]}.

(** A metrics answer with one error in its error list and one time
    series. *)
Definition failing_metrics : Server :=
  scripted job1 (status_script []) no_results
    (λ _, Ok (JObj {[ "errors" :=
                        JObj {[ "errors" :=
                                  JArr [JObj {[ "message" :=
                                                  JStr "bad query" ]}] ]};
                      "queryResult" :=
                        JArr [JObj {[ "timeSeriesList" :=
                                        JObj {[ "timeSeries" :=
                                                  JArr [series_a] ]} ]}] ]})).

(** ** Discovery *)

(** [srv], with the status requests after the second answered by
    [later]. *)
Definition after_second_status (srv : Server)
    (later : json → nat → result json) : Server := {|
  post_search_jobs := post_search_jobs srv;
  get_search_job id n :=
    match n with
    | 0 | 1 => get_search_job srv id n
    | _ => later id n
    end;
  get_search_job_results := get_search_job_results srv;
  post_metrics_queries := post_metrics_queries srv
|}.

(** The job that the probe of a records or messages table submits. *)
Definition probe_submitted (srv : Server) (config : Config)
    (table_config : TableConfig) : result json :=
  SumoLogic.search_job srv (query table_config +:+ " | limit 1")
    (start_date config) (end_date config) (time_zone config)
    (by_receipt_time table_config) (auto_parsing_mode table_config).

(** The schema with the three window columns and nothing else. *)
Definition window_schema (query_type : string) : json :=
  JObj {[ "type" := JStr "object";
          "properties" :=
            JObj {[ "time_zone" := TapSumoLogic.type_schema ["null"; "string"];
                    "end_date" := TapSumoLogic.type_schema ["null"; "string"];
                    "start_date" :=
                      TapSumoLogic.type_schema ["null"; "string"] ]};
          "key_properties" :=
            JArr (JStr <$>
                    (["start_date"; "end_date"; "time_zone"]
                     ++ (if bool_decide (query_type = "messages")
                         then ["_messagetime"; "_messageid"]
                         else []))) ]}.

(** A job cancelled at the first status request. *)
Definition cancelled_probe : Server :=
  scripted job1 (status_script [status_of CANCELLED ∅])
    (λ _ _ _, Raise (HTTPError (JStr "gone"))) no_metrics.

(** A job that is still gathering at every status request, and whose
    first row reports the key field host. *)
Definition slow_probe : Server :=
  scripted job1 (λ _, Ok (status_of GATHERING ∅))
    (λ _ _ _,
       Ok (JObj {[ "fields" :=
                     JArr [descriptor {| fd_name := "host";
                                         fd_type := "string";
                                         fd_key := true |}];
                   "messages" := JArr [] ]}))
    no_metrics.

(** The schema of a metrics table, the same for every metrics query. *)
Definition metrics_schema : json :=
  JObj {[ "type" := JStr "object";
          "properties" :=
            JObj {[ "metricDefinition" :=
                      TapSumoLogic.type_schema ["object"; "null"];
                    "points" := TapSumoLogic.type_schema ["object"; "null"] ]};
          "key_properties" :=
            JArr [JStr "metricDefinition"; JStr "points"] ]}.

(** The request that the probe of a metrics table posts: the query as
    it is configured. *)
Definition metrics_probe (srv : Server) (config : Config)
    (table_config : TableConfig) : result json :=
  SumoLogic.metrics_query srv (query table_config) (start_date config)
    (end_date config) (quantization table_config) (rollup table_config)
    (timeshift table_config).

(** The schema that [discover_streams] resolves for a table with a
    supplied schema. *)
Definition supplied (load_schema_file : string → result json)
    (genson_schema : json → result json) (stream : TableConfig) (s : json)
    : Prop :=
  match schema stream with
  | Some (JStr path) => load_schema_file path = Ok s
  | Some (JObj m) => genson_schema (JObj m) = Ok s
  | _ => False
  end.

(** The step of [discover_streams] before the test of the query type
    does not raise: the schema file loads, genson accepts the schema of
    the configuration, or, for a schema that is inferred, the SDK takes
    the root URL. *)
Definition resolves (load_schema_file : string → result json)
    (genson_schema : json → result json) (config : Config)
    (stream : TableConfig) : Prop :=
  match schema stream with
  | Some (JStr path) => ∃ s, load_schema_file path = Ok s
  | Some (JObj m) => ∃ s, genson_schema (JObj m) = Ok s
  | _ => Py.last_char (root_url config) ≠ "/"
  end.

Definition invalid_query_type (query_type : string) : exn :=
  ValueError ("Invalid query_type: " +:+ query_type
              +:+ ". Must be one of 'records' or 'messages'.").



(** A table with a schema in its configuration. *)
Definition inline_table (qt : string) (keys : list string) (s : json)
    : TableConfig := {|
  query := "_sourceCategory=prod";
  table_name := "prod";
  query_type := qt;
  primary_keys := keys;
  by_receipt_time := false;
  auto_parsing_mode := "intelligent";
  quantization := None;
  rollup := None;
  timeshift := None;
  schema := Some s
|}.

Definition host_schema : json :=
  JObj {[ "type" := JStr "object";
          "properties" :=
            JObj {[ "host" := TapSumoLogic.type_schema ["null"; "string"] ]} ]}.
Definition message_keys : list string := ["_messagetime"; "_messageid"].

(** ** Runs *)

(** The job is done on the [k]-th status request, which is answered
    with [status]; the status requests before it are answered with
    payloads that are not terminal. *)
Definition done_at (srv : Server) (search_job : json) (k : nat)
    (status : json) : Prop :=
  (∀ i, i < k →
        ∃ s, SumoLogic.search_job_status srv search_job i = Ok s
             ∧ non_terminal s)
  ∧ SumoLogic.search_job_status srv search_job k = Ok status
  ∧ in_state status DONE.

(** The results endpoint hands out [rows] in pages of at most [page]
    rows: a request at an offset is answered with the rows from that
    offset on, [page] of them at most. *)
Definition serves (srv : Server) (self : SearchJobStream) (search_job : json)
    (rows : list json) (page : nat) : Prop :=
  ∀ offset : nat, offset ≤ length rows →
    ∃ response,
      SumoLogic.search_job_records srv search_job (stream_query_type self)
        (Some Stream.limit) (Z.of_nat offset) = Ok response
      ∧ Py.getitem response (stream_query_type self)
        = Ok (JArr (take page (drop offset rows))).

(** The job never reaches a terminal state. *)
Definition never_terminal (srv : Server) (search_job : json) : Prop :=
  ∀ i, ∃ s, SumoLogic.search_job_status srv search_job i = Ok s
            ∧ non_terminal s ∧ has_histogram s.

(** The first [k] status requests are answered with payloads that are
    not terminal, and the [k]-th fails with [e]. *)
Definition status_fails_at (srv : Server) (search_job : json) (k : nat)
    (e : exn) : Prop :=
  (∀ i, i < k →
        ∃ s, SumoLogic.search_job_status srv search_job i = Ok s
             ∧ non_terminal s)
  ∧ SumoLogic.search_job_status srv search_job k = Raise e.

Definition row_c : json :=
  JObj {[ "map" := JObj {[ "host" := JStr "c"; "_count" := JStr "5" ]} ]}.

(** A job that is done at the third status request, reports one record
    and has three, handed out two at a time. *)
Definition short_count_run : Server :=
  scripted job1
    (status_script [status_of GATHERING ∅; status_of GATHERING ∅;
                    status_of DONE {[ "recordCount" := JNum 1 ]}])
    (λ query_type _ offset,
       Ok (JObj {[ query_type :=
                     JArr (take 2 (drop (Z.to_nat offset)
                                     [row_a; row_b; row_c])) ]}))
    no_metrics.

(** A job that is gathering at every status request. *)
Definition endless_run : Server :=
  scripted job1 (λ _, Ok (status_of GATHERING ∅)) no_results no_metrics.

(** A job whose third status request fails. *)
Definition broken_run : Server :=
  scripted job1
    (status_script [status_of GATHERING ∅; status_of GATHERING ∅])
    no_results no_metrics.

(** A finished job that reports no record, on a server whose results
    endpoint fails. *)
Definition empty_run : Server :=
  scripted job1
    (status_script [status_of DONE {[ "recordCount" := JNum 0 ]}])
    (λ _ _ _, Raise (HTTPError (JStr "no results"))) no_metrics.
(** [self], configured with another time zone. *)
Definition with_time_zone (self : SearchJobStream) (tz : string)
    : SearchJobStream := {|
  stream_config := {|
    access_id := access_id (stream_config self);
    access_key := access_key (stream_config self);
    root_url := root_url (stream_config self);
    start_date := start_date (stream_config self);
    end_date := end_date (stream_config self);
    time_zone := tz;
    tables := tables (stream_config self)
  |};
  stream_name := stream_name self;
  stream_query_type := stream_query_type self;
  stream_primary_keys := stream_primary_keys self;
  stream_schema := stream_schema self;
  stream_query := stream_query self;
  stream_by_receipt_time := stream_by_receipt_time self;
  stream_auto_parsing_mode := stream_auto_parsing_mode self;
  stream_quantization := stream_quantization self;
  stream_rollup := stream_rollup self;
  stream_timeshift := stream_timeshift self
|}.

(** * Properties *)

(** ** The metrics request *)

(** C7: in the request that [metrics_query] posts, the query object holds
    each of quantization, rollup and timeshift exactly when it is set,
    with the configured value; with none of them set the object has the
    keys [rowId] and [query] only. *)
Theorem metrics_query_omits_unset (srv : Server) (query from_time
    to_time : string) (quantization : option Z) (rollup : option string)
    (timeshift : option Z) :
  ∃ (o : gmap string json) (time_range : json),
    SumoLogic.metrics_query srv query from_time to_time quantization rollup
      timeshift
    = post_metrics_queries srv
        (JObj {[ "queries" := JArr [JObj o]; "timeRange" := time_range ]})
    ∧ o !! "quantization" = JNum <$> quantization
    ∧ o !! "rollup" = JStr <$> rollup
    ∧ o !! "timeshift" = JNum <$> timeshift
    ∧ (quantization = None → rollup = None → timeshift = None →
       dom o = {[ "rowId"; "query" ]}).
Proof.
  eexists _, _. split; [reflexivity |].
  split_and!;
    [by destruct quantization, rollup, timeshift ..
    | intros -> -> ->].
  vm_compute. reflexivity.
Qed.

(** ** Schema inference *)

Lemma describes_descriptor fd : describes fd (descriptor fd).
Proof. eexists. split; [reflexivity |]. by split_and!. Qed.

Lemma field_types_spec (t : string) :
  TapSumoLogic.field_types (JStr t) = spec_types t.
Proof.
  unfold TapSumoLogic.field_types, spec_types, Py.eq_str.
  destruct (decide (t = "int")) as [-> | Hi]; [done |].
  destruct (decide (t = "long")) as [-> | Hl]; [done |].
  rewrite !bool_decide_eq_false_2 by done.
  rewrite (decide_False (P := t = "int" ∨ t = "long")) by tauto.
  by case_bool_decide; case_decide.
Qed.

Lemma add_field_describes fd v (acc : gmap string json * list string) :
  describes fd v →
  TapSumoLogic.add_field acc v
  = Ok (<[fd_name fd := TapSumoLogic.type_schema (spec_types (fd_type fd))]>
          acc.1,
        if fd_key fd then acc.2 ++ [fd_name fd] else acc.2).
Proof.
  intros (m & -> & Hn & Ht & Hk). unfold TapSumoLogic.add_field. cbn.
  rewrite Hn, Ht, Hk. cbn. by rewrite field_types_spec.
Qed.

Lemma foldM_add_field fds : ∀ fields (acc : gmap string json * list string),
  Forall2 describes fds fields →
  Py.foldM TapSumoLogic.add_field acc fields
  = Ok (properties_of fds acc.1, acc.2 ++ keys_of fds).
Proof.
  induction fds as [| fd fds IH]; intros fields acc Hall;
    inversion Hall as [| ? v ? fields' Hd Hall']; subst.
  - destruct acc. cbn. by rewrite app_nil_r.
  - change (Py.foldM TapSumoLogic.add_field acc (v :: fields'))
      with (TapSumoLogic.add_field acc v
              ≫= λ b, Py.foldM TapSumoLogic.add_field b fields').
    rewrite (add_field_describes fd) by done.
    change (Ok ?a ≫= ?f) with (f a). cbv beta.
    rewrite IH by done. unfold keys_of. rewrite filter_cons.
    destruct (fd_key fd); cbn; [by rewrite <- app_assoc | done].
Qed.

Lemma dom_properties_of fds (schema : gmap string json) :
  dom (properties_of fds schema) = list_to_set (fd_name <$> fds) ∪ dom schema.
Proof.
  revert schema. induction fds as [| fd fds IH]; intros schema; cbn.
  - set_solver.
  - unfold properties_of in *. cbn. rewrite IH, dom_insert_L. set_solver.
Qed.

Lemma schema_of_fields_search (query_type : string) fds fields :
  query_type ∈ ["records"; "messages"] →
  Forall2 describes fds fields →
  TapSumoLogic.schema_of_fields query_type (JArr fields)
  = Ok (JObj {[ "type" := JStr "object";
                "properties" := JObj (inferred_properties fds);
                "key_properties" :=
                  JArr (JStr <$>
                          ((keys_of fds
                            ++ ["start_date"; "end_date"; "time_zone"])
                           ++ (if bool_decide (query_type = "messages")
                               then ["_messagetime"; "_messageid"]
                               else []))) ]}).
Proof.
  intros Hq Hall. unfold TapSumoLogic.schema_of_fields.
  rewrite bool_decide_eq_true_2 by done. cbn.
  rewrite (foldM_add_field fds) by done. cbn.
  case_bool_decide; [done | by rewrite app_nil_r].
Qed.

Lemma properties_of_app fds1 fds2 (schema : gmap string json) :
  properties_of (fds1 ++ fds2) schema
  = properties_of fds2 (properties_of fds1 schema).
Proof. apply foldl_app. Qed.

Lemma properties_of_other fds : ∀ (schema : gmap string json) k,
  k ∉ fd_name <$> fds → properties_of fds schema !! k = schema !! k.
Proof.
  induction fds as [| fd fds IH]; intros schema k Hk; [done |].
  rewrite fmap_cons, not_elem_of_cons in Hk. destruct Hk as [Hfd Hk].
  change (properties_of (fd :: fds) schema)
    with (properties_of fds
            (<[fd_name fd :=
                 TapSumoLogic.type_schema (spec_types (fd_type fd))]> schema)).
  by rewrite IH, lookup_insert_ne.
Qed.

Lemma properties_of_last before fd after (schema : gmap string json) :
  fd_name fd ∉ fd_name <$> after →
  properties_of (before ++ fd :: after) schema !! fd_name fd
  = Some (TapSumoLogic.type_schema (spec_types (fd_type fd))).
Proof.
  intros Hafter. rewrite properties_of_app.
  change (properties_of (fd :: after) ?s)
    with (properties_of after
            (<[fd_name fd :=
                 TapSumoLogic.type_schema (spec_types (fd_type fd))]> s)).
  by rewrite properties_of_other, lookup_insert_eq.
Qed.

Lemma properties_of_values fds : ∀ (schema : gmap string json) k v,
  properties_of fds schema !! k = Some v →
  schema !! k = Some v
  ∨ ∃ fd, fd ∈ fds ∧ v = TapSumoLogic.type_schema (spec_types (fd_type fd)).
Proof.
  induction fds as [| fd fds IH]; intros schema k v Hk; [by left |].
  change (properties_of (fd :: fds) schema)
    with (properties_of fds
            (<[fd_name fd :=
                 TapSumoLogic.type_schema (spec_types (fd_type fd))]> schema))
    in Hk.
  apply IH in Hk as [Hk | (fd' & Hfd' & ->)].
  - apply lookup_insert_Some in Hk as [[_ <-] | [_ Hk]]; [| by left].
    right. exists fd. split; [apply list_elem_of_here | done].
  - right. exists fd'. split; [by apply list_elem_of_further | done].
Qed.

Lemma spec_types_cases (t : string) :
  spec_types t ∈ [["null"; "string"; "integer"]; ["null"; "string"; "number"];
                  ["null"; "string"]].
Proof. unfold spec_types. repeat case_decide; set_solver. Qed.

(** C5 fails: a field that the probe reports as start_date, of type long,
    ends with the type list null and string, without integer, because
    the window column of that name is stored after the loop; and of two
    descriptors of one name the later one decides. *)
Lemma type_mapping_counterexample :
  ∃ properties : gmap string json,
    (TapSumoLogic.schema_of_fields "records"
       (JArr [descriptor {| fd_name := "start_date"; fd_type := "long";
                            fd_key := false |};
              descriptor {| fd_name := "size"; fd_type := "long";
                            fd_key := false |};
              descriptor {| fd_name := "size"; fd_type := "string";
                            fd_key := false |}])
     ≫= λ schema, Py.getitem schema "properties")
    = Ok (JObj properties)
    ∧ properties !! "start_date"
      = Some (TapSumoLogic.type_schema ["null"; "string"])
    ∧ properties !! "size"
      = Some (TapSumoLogic.type_schema ["null"; "string"])
    ∧ TapSumoLogic.type_schema ["null"; "string"]
      ≠ TapSumoLogic.type_schema ["null"; "string"; "integer"].
Proof.
  eexists. split; [by vm_compute |].
  split_and!; [by vm_compute | by vm_compute |].
  intros H. by vm_compute in H.
Qed.

(** C5, amended: inference succeeds on every list of field descriptors,
    and a field whose name is none of start_date, end_date and time_zone,
    and is not reported again later in the list, has in the schema the
    type list that depends on its reported type alone: null, string and
    integer for int and long; null, string and number for double; null
    and string for anything else, boolean included.  The three window
    columns are null and string whatever the probe reports under their
    names, and every property of the schema carries one of the three
    lists: none holds boolean. *)
Theorem type_mapping_total (query_type : string)
    (fds : list FieldDescriptor) (fields : list json) :
  query_type ∈ ["records"; "messages"] →
  Forall2 describes fds fields →
  ∃ (schema : json) (properties : gmap string json),
    TapSumoLogic.schema_of_fields query_type (JArr fields) = Ok schema
    ∧ Py.getitem schema "properties" = Ok (JObj properties)
    ∧ (∀ before fd after,
         fds = before ++ fd :: after →
         fd_name fd ∉ fd_name <$> after →
         fd_name fd ∉ ["start_date"; "end_date"; "time_zone"] →
         properties !! fd_name fd
         = Some (TapSumoLogic.type_schema
                   (if decide (fd_type fd = "int" ∨ fd_type fd = "long")
                    then ["null"; "string"; "integer"]
                    else if decide (fd_type fd = "double")
                         then ["null"; "string"; "number"]
                         else ["null"; "string"])))
    ∧ (∀ k, k ∈ ["start_date"; "end_date"; "time_zone"] →
            properties !! k
            = Some (TapSumoLogic.type_schema ["null"; "string"]))
    ∧ (∀ k v, properties !! k = Some v →
              ∃ types,
                v = TapSumoLogic.type_schema types
                ∧ types ∈ [["null"; "string"; "integer"];
                           ["null"; "string"; "number"]; ["null"; "string"]]
                ∧ "boolean" ∉ types).
Proof.
  intros Hq Hall. eexists _, (inferred_properties fds).
  split; [by apply schema_of_fields_search |]. split; [done |].
  unfold inferred_properties. split_and!.
  - intros before fd after -> Hafter Hwindow.
    rewrite !not_elem_of_cons in Hwindow. destruct Hwindow as (? & ? & ? & _).
    rewrite !lookup_insert_ne by done.
    by apply properties_of_last.
  - intros k Hk. rewrite !elem_of_cons, elem_of_nil in Hk.
    destruct Hk as [-> | [-> | [-> | []]]]; by simplify_map_eq.
  - intros k v Hk.
    assert (∃ types,
              v = TapSumoLogic.type_schema types
              ∧ types ∈ [["null"; "string"; "integer"];
                         ["null"; "string"; "number"]; ["null"; "string"]])
      as (types & -> & Htypes).
    { repeat (apply lookup_insert_Some in Hk as [[_ <-] | [_ Hk]];
              [exists ["null"; "string"]; split; [done | set_solver] |]).
      apply properties_of_values in Hk as [Hk | (fd & _ & ->)]; [done |].
      eexists. split; [done | apply spec_types_cases]. }
    exists types. split_and!; [done | done |].
    rewrite !elem_of_cons, elem_of_nil in Htypes.
    destruct Htypes as [-> | [-> | [-> | []]]];
      apply (bool_decide_unpack _); by vm_compute.
Qed.

Lemma type_mapping_total_witness :
  ∃ (schema : json) (properties : gmap string json),
    TapSumoLogic.schema_of_fields "records"
      (JArr [descriptor {| fd_name := "host"; fd_type := "string";
                           fd_key := true |};
             descriptor {| fd_name := "_count"; fd_type := "int";
                           fd_key := false |}])
    = Ok schema
    ∧ Py.getitem schema "properties" = Ok (JObj properties)
    ∧ properties !! "_count"
      = Some (TapSumoLogic.type_schema ["null"; "string"; "integer"]).
Proof.
  destruct (type_mapping_total "records"
              [{| fd_name := "host"; fd_type := "string"; fd_key := true |};
               {| fd_name := "_count"; fd_type := "int"; fd_key := false |}]
              [descriptor {| fd_name := "host"; fd_type := "string";
                             fd_key := true |};
               descriptor {| fd_name := "_count"; fd_type := "int";
                             fd_key := false |}])
    as (schema & properties & Hschema & Hprops & Hlast & _).
  - apply list_elem_of_here.
  - repeat constructor; apply describes_descriptor.
  - exists schema, properties. split; [exact Hschema |].
    split; [exact Hprops |].
    apply (Hlast
             [{| fd_name := "host"; fd_type := "string"; fd_key := true |}]
             {| fd_name := "_count"; fd_type := "int"; fd_key := false |} []).
    + reflexivity.
    + apply not_elem_of_nil.
    + apply (bool_decide_unpack _). by vm_compute.
Defined.

(** C6: the key properties of a schema inferred for a records or messages
    table are the names of the probe's key fields, in order, then
    start_date, end_date and time_zone, then, for messages only,
    _messagetime and _messageid; the three window columns are schema
    properties as well.  A messages probe whose only field is the key
    field host gives host, start_date, end_date, time_zone, _messagetime,
    _messageid. *)
Theorem inferred_key_properties (query_type : string)
    (fds : list FieldDescriptor) (fields : list json) :
  query_type ∈ ["records"; "messages"] →
  Forall2 describes fds fields →
  ∃ properties : gmap string json,
    TapSumoLogic.schema_of_fields query_type (JArr fields)
    = Ok (JObj {[ "type" := JStr "object";
                  "properties" := JObj properties;
                  "key_properties" :=
                    JArr (JStr <$>
                            ((fd_name <$> filter (λ fd, fd_key fd) fds)
                             ++ ["start_date"; "end_date"; "time_zone"]
                             ++ (if bool_decide (query_type = "messages")
                                 then ["_messagetime"; "_messageid"]
                                 else []))) ]})
    ∧ (∀ k, k ∈ ["start_date"; "end_date"; "time_zone"] →
            properties !! k
            = Some (TapSumoLogic.type_schema ["null"; "string"]))
    ∧ (query_type = "messages" →
       fds = [{| fd_name := "host"; fd_type := "string"; fd_key := true |}] →
       TapSumoLogic.schema_of_fields query_type (JArr fields)
       = Ok (JObj {[ "type" := JStr "object";
                     "properties" := JObj properties;
                     "key_properties" :=
                       JArr [JStr "host"; JStr "start_date"; JStr "end_date";
                             JStr "time_zone"; JStr "_messagetime";
                             JStr "_messageid"] ]})).
Proof.
  intros Hq Hall. exists (inferred_properties fds).
  rewrite (schema_of_fields_search query_type fds) by done.
  split_and!.
  - by rewrite <- app_assoc.
  - intros k Hk. unfold inferred_properties.
    rewrite !elem_of_cons, elem_of_nil in Hk.
    destruct Hk as [-> | [-> | [-> | []]]]; by simplify_map_eq.
  - by intros -> ->.
Qed.

Lemma inferred_key_properties_witness :
  ∃ properties : gmap string json,
    TapSumoLogic.schema_of_fields "messages"
      (JArr [descriptor
               {| fd_name := "host"; fd_type := "string"; fd_key := true |}])
    = Ok (JObj {[ "type" := JStr "object";
                  "properties" := JObj properties;
                  "key_properties" :=
                    JArr [JStr "host"; JStr "start_date"; JStr "end_date";
                          JStr "time_zone"; JStr "_messagetime";
                          JStr "_messageid"] ]}).
Proof.
  destruct (inferred_key_properties "messages"
              [{| fd_name := "host"; fd_type := "string"; fd_key := true |}]
              [descriptor
                 {| fd_name := "host"; fd_type := "string"; fd_key := true |}])
    as (properties & _ & _ & H3).
  - apply list_elem_of_further, list_elem_of_here.
  - repeat constructor. apply describes_descriptor.
  - exists properties. apply H3; reflexivity.
Defined.

(** ** Stream keys *)

Lemma stream_keys_configured (k : string) (ks : list string) (schema : json) :
  TapSumoLogic.stream_keys (k :: ks) schema = Ok (JArr (JStr <$> k :: ks)).
Proof. reflexivity. Qed.

(** C8, at a failing input: a messages table configured with the
    additional primary key id, whose inferred schema has the key
    properties host, start_date, end_date, time_zone, _messagetime and
    _messageid, gets the stream keys id alone. *)
Theorem stream_keys_drop_schema_keys :
  ∃ schema : json,
    TapSumoLogic.get_schema_for_table host_probe
      (sample_config [sample_table "messages" ["id"]])
      (sample_table "messages" ["id"])
    = Ok schema
    ∧ Py.getitem schema "key_properties"
      = Ok (JArr [JStr "host"; JStr "start_date"; JStr "end_date";
                  JStr "time_zone"; JStr "_messagetime"; JStr "_messageid"])
    ∧ stream_primary_keys
        <$> TapSumoLogic.discover_stream host_probe no_file Ok
              (sample_config [sample_table "messages" ["id"]])
              (sample_table "messages" ["id"])
      = Ok (JArr [JStr "id"]).
Proof. eexists. split_and!; by vm_compute. Qed.

(** ** The rows of a records or messages run *)

Lemma bind_Ok {A B} (r : result A) (f : A → result B) (b : B) :
  r ≫= f = Ok b → ∃ a, r = Ok a ∧ f a = Ok b.
Proof. destruct r as [a | e]; [by exists a | done]. Qed.

Lemma mapM_Ok {A B} (f : A → result B) (l : list A) : ∀ k,
  mapM f l = Ok k → Forall2 (λ x y, f x = Ok y) l k.
Proof.
  induction l as [| x l IH]; intros k Hk; cbn in Hk.
  - injection Hk as <-. constructor.
  - apply bind_Ok in Hk as (y & Hy & Hk).
    apply bind_Ok in Hk as (k' & Hk' & Hk).
    injection Hk as <-. constructor; [done | by apply IH].
Qed.

Lemma len_nonneg (v : json) (n : Z) : Py.len v = Ok n → (0 ≤ n)%Z.
Proof. destruct v; cbn; intros [= <-]; lia. Qed.

Lemma shape_Ok self now rec r :
  Stream.shape self now rec = Ok r →
  ∃ m, Py.getitem rec "map" = Ok (JObj m)
       ∧ r = JObj (Stream.custom_columns self now ∪ m).
Proof.
  unfold Stream.shape. intros H.
  apply bind_Ok in H as (v & Hv & H).
  destruct v; try discriminate. injection H as <-. eauto.
Qed.

Lemma fetch_page_Ok srv self now search_job count rs n :
  Stream.fetch_page srv self now search_job count = Ok (rs, n) →
  Forall (shaped srv self now) rs ∧ (0 ≤ n)%Z.
Proof.
  unfold Stream.fetch_page. intros H.
  apply bind_Ok in H as (response & Hresp & H).
  apply bind_Ok in H as (recs & Hrecs & H).
  apply bind_Ok in H as (rows & Hrows & H).
  apply bind_Ok in H as (rs' & Hrs & H).
  apply bind_Ok in H as (n' & Hn & H).
  injection H as <- <-. split; [| by eapply len_nonneg].
  apply mapM_Ok in Hrs. apply Forall_forall. intros r Hr.
  apply list_elem_of_lookup in Hr as [i Hi].
  destruct (Forall2_lookup_r _ _ _ _ _ Hrs Hi) as (rec & Hrec & Hshape).
  apply shape_Ok in Hshape as (m & Hm & ->).
  exists m, rec. split_and!; [| done | done].
  exists search_job, count, response, recs, rows.
  split_and!; [done .. |]. by eapply list_elem_of_lookup_2.
Qed.

Lemma paginate_S srv self now fuel search_job record_count count records :
  Stream.paginate srv self now (S fuel) search_job record_count count records
  = match Py.int_lt count record_count with
    | Raise e => Some (Raise e)
    | Ok false => Some (Ok (count, records))
    | Ok true =>
        match Stream.fetch_page srv self now search_job count with
        | Raise e => Some (Raise e)
        | Ok (rs, n) =>
            if (0 <? n)%Z
            then Stream.paginate srv self now fuel search_job record_count
                   (count + n)%Z (records ++ rs)
            else Some (Ok (count, records ++ rs))
        end
    end.
Proof. reflexivity. Qed.

Lemma paginate_Forall srv self now (P : json → Prop) search_job record_count :
  (∀ r, shaped srv self now r → P r) →
  ∀ fuel count records c records',
    Forall P records →
    Stream.paginate srv self now fuel search_job record_count count records
    = Some (Ok (c, records')) →
    Forall P records'.
Proof.
  intros HP. induction fuel as [| fuel IH]; intros count records c records'
    Hall H; [done |].
  rewrite paginate_S in H.
  destruct (Py.int_lt count record_count) as [[] |]; try done.
  - destruct (Stream.fetch_page srv self now search_job count)
      as [[rs n] |] eqn:Hpage; [| done].
    apply fetch_page_Ok in Hpage as [Hrs _].
    assert (Forall P (records ++ rs)) as Hall'.
    { apply Forall_app. split; [done |]. eapply Forall_impl; eauto. }
    destruct (0 <? n)%Z; [by eapply IH |].
    by injection H as <- <-.
  - by injection H as <- <-.
Qed.

Lemma search_records_shaped srv self now fuel records :
  Stream.search_records srv self now fuel = Some (Ok records) →
  Forall (shaped srv self now) records.
Proof.
  unfold Stream.search_records. intros H.
  repeat case_match; simplify_eq; try done.
  eapply (paginate_Forall srv self now (shaped srv self now)); eauto.
Qed.

Lemma get_records_shaped srv self now fuel records :
  stream_query_type self ∈ ["messages"; "records"] →
  Stream.get_records srv self now fuel = Some (Ok records) →
  Forall (shaped srv self now) records.
Proof.
  intros Hq. unfold Stream.get_records.
  rewrite bool_decide_eq_true_2 by done. apply search_records_shaped.
Qed.

Lemma dom_custom_columns self now :
  dom (Stream.custom_columns self now) = metadata_columns.
Proof.
  unfold Stream.custom_columns, metadata_columns.
  rewrite !dom_insert_L, dom_singleton_L. set_solver.
Qed.

(** C9: every row that a records or messages run yields is the field map
    of a fetched row merged with the metadata block: the configured
    start_date, end_date and time_zone, the one timestamp of the run under
    both _SDC_EXTRACTED_AT and _SDC_BATCHED_AT, and null under
    _SDC_DELETED_AT; every other key has the value of the field map. *)
Theorem records_carry_metadata (srv : Server) (self : SearchJobStream)
    (now : string) (fuel : nat) (records : list json) :
  stream_query_type self ∈ ["messages"; "records"] →
  Stream.get_records srv self now fuel = Some (Ok records) →
  Forall (λ r, ∃ (rec : json) (m : gmap string json),
                 fetched_row srv self rec
                 ∧ Py.getitem rec "map" = Ok (JObj m)
                 ∧ r = JObj (Stream.custom_columns self now ∪ m)
                 ∧ carries_metadata self now m r)
    records.
Proof.
  intros Hq Hrun.
  eapply Forall_impl; [by eapply get_records_shaped |].
  intros r (m & rec & Hrec & Hm & ->). exists rec, m.
  split_and!; [done .. |]. eexists. split; [done |].
  split_and!; try by (apply lookup_union_Some_l; vm_compute).
  intros k Hk. apply lookup_union_r, not_elem_of_dom.
  by rewrite dom_custom_columns.
Qed.

Lemma records_carry_metadata_witness :
  ∃ records,
    Stream.get_records two_rows (sample_stream "records")
      "2024-01-03 10:00:00.000000" 3
    = Some (Ok records)
    ∧ length records = 2
    ∧ Forall (λ r, ∃ m, carries_metadata (sample_stream "records")
                          "2024-01-03 10:00:00.000000" m r)
        records.
Proof.
  eexists. split; [by vm_compute |]. split; [reflexivity |].
  eapply Forall_impl.
  - apply (records_carry_metadata two_rows (sample_stream "records")
             "2024-01-03 10:00:00.000000" 3).
    + apply list_elem_of_further, list_elem_of_here.
    + by vm_compute.
  - intros r (rec & m & _ & _ & _ & H). by exists m.
Defined.

(** ** Rows against the inferred schema *)

(** C1 fails: on [raw_row] the inferred schema has the property host, and
    the one row that the run yields has no key host, and has the key _raw,
    which is neither a schema property nor a metadata column. *)
Lemma record_conformance_counterexample :
  ∃ (properties rm : gmap string json),
    (TapSumoLogic.get_schema_for_table raw_row
       (sample_config [sample_table "messages" []])
       (sample_table "messages" [])
     ≫= λ schema, Py.getitem schema "properties")
    = Ok (JObj properties)
    ∧ Stream.get_records raw_row (sample_stream "messages")
        "2024-01-03 10:00:00.000000" 2
      = Some (Ok [JObj rm])
    ∧ is_Some (properties !! "host")
    ∧ rm !! "host" = None
    ∧ is_Some (rm !! "_raw")
    ∧ properties !! "_raw" = None
    ∧ "_raw" ∉ metadata_columns.
Proof.
  eexists _, _. split; [by vm_compute |]. split; [by vm_compute |].
  split_and!; [by eexists | by vm_compute | by eexists | by vm_compute |].
  unfold metadata_columns. set_solver.
Qed.

(** C1, amended: the keys of a yielded row are exactly the keys of the
    fetched field map and the six metadata columns.  Against the schema
    inferred from a probe, whose properties are the probe's field names
    and the three window columns: every schema property is a key of the
    row when the field map has every probe field, and the row has no key
    beyond the schema properties and the metadata columns when the field
    map has none. *)
Theorem record_keys (srv : Server) (self : SearchJobStream) (now : string)
    (fuel : nat) (records : list json) (fds : list FieldDescriptor)
    (fields : list json) (schema : json) :
  stream_query_type self ∈ ["messages"; "records"] →
  Forall2 describes fds fields →
  TapSumoLogic.schema_of_fields (stream_query_type self) (JArr fields)
  = Ok schema →
  Stream.get_records srv self now fuel = Some (Ok records) →
  ∃ properties : gmap string json,
    Py.getitem schema "properties" = Ok (JObj properties)
    ∧ dom properties
      = list_to_set (fd_name <$> fds)
        ∪ {[ "start_date"; "end_date"; "time_zone" ]}
    ∧ Forall (λ r, ∃ (m rm : gmap string json),
                     shaped_from srv self now m r
                     ∧ r = JObj rm
                     ∧ dom rm = dom m ∪ metadata_columns
                     ∧ ((∀ fd, fd ∈ fds → fd_name fd ∈ dom m) →
                        dom properties ⊆ dom rm)
                     ∧ (dom m ⊆ dom properties ∪ metadata_columns →
                        dom rm ⊆ dom properties ∪ metadata_columns))
        records.
Proof.
  intros Hq Hall Hschema Hrun.
  rewrite (schema_of_fields_search _ fds) in Hschema by set_solver.
  injection Hschema as <-. exists (inferred_properties fds).
  assert (dom (inferred_properties fds)
          = list_to_set (fd_name <$> fds)
            ∪ {[ "start_date"; "end_date"; "time_zone" ]}) as Hdom.
  { unfold inferred_properties.
    rewrite !dom_insert_L, dom_properties_of. set_solver. }
  split; [done |]. split; [done |].
  eapply Forall_impl; [by eapply get_records_shaped |].
  intros r (m & Hm). exists m, (Stream.custom_columns self now ∪ m).
  assert (dom (Stream.custom_columns self now ∪ m)
          = dom m ∪ metadata_columns) as Hrm.
  { rewrite dom_union_L, dom_custom_columns. set_solver. }
  split; [done |]. split; [by destruct Hm as (? & ? & ? & ->) |].
  split; [done |]. rewrite Hrm, Hdom. split.
  - intros Hfields k Hk. apply elem_of_union in Hk as [Hk | Hk].
    + apply elem_of_list_to_set, list_elem_of_fmap in Hk as (fd & -> & Hfd).
      apply elem_of_union_l. by apply Hfields.
    + apply elem_of_union_r. unfold metadata_columns. set_solver.
  - set_solver.
Qed.

Lemma record_keys_witness :
  ∃ (properties : gmap string json) (records : list json),
    Stream.get_records two_rows (sample_stream "records")
      "2024-01-03 10:00:00.000000" 3
    = Some (Ok records)
    ∧ dom properties
      = {[ "host"; "_count"; "start_date"; "end_date"; "time_zone" ]}
    ∧ Forall (λ r, ∃ (m rm : gmap string json),
                     r = JObj rm ∧ dom rm = dom m ∪ metadata_columns)
        records.
Proof.
  pose (fds := [{| fd_name := "host"; fd_type := "string"; fd_key := true |};
                {| fd_name := "_count"; fd_type := "int"; fd_key := false |}]).
  destruct (TapSumoLogic.schema_of_fields "records" (JArr (descriptor <$> fds)))
    as [schema |] eqn:Hs; [| by vm_compute in Hs].
  destruct (Stream.get_records two_rows (sample_stream "records")
              "2024-01-03 10:00:00.000000" 3)
    as [[records |] |] eqn:Hr; [| by vm_compute in Hr ..].
  destruct (record_keys two_rows (sample_stream "records")
              "2024-01-03 10:00:00.000000" 3 records fds (descriptor <$> fds)
              schema)
    as (properties & _ & Hdom & Hrows).
  - apply list_elem_of_further, list_elem_of_here.
  - repeat constructor; apply describes_descriptor.
  - exact Hs.
  - exact Hr.
  - exists properties, records. split; [done |].
    split; [rewrite Hdom; set_solver |].
    eapply Forall_impl; [exact Hrows |].
    intros r (m & rm & _ & -> & Hrm & _). by exists m, rm.
Defined.

(** ** The pagination loop *)

Lemma int_lt_total count record_count b :
  Py.int_lt count record_count = Ok b →
  b = (count <? total_of record_count)%Z.
Proof. destruct record_count; cbn; congruence. Qed.

Lemma length_chars s : length (Py.chars s) = String.length s.
Proof. induction s; cbn; congruence. Qed.

Lemma len_iter v n l :
  Py.len v = Ok n → Py.iter v = Ok l → n = Z.of_nat (length l).
Proof.
  destruct v; cbn; try discriminate; intros [= <-] [= <-].
  - by rewrite length_chars.
  - done.
  - by rewrite !length_fmap, length_map_to_list.
Qed.

Lemma fetch_page_length srv self now search_job count rs n :
  Stream.fetch_page srv self now search_job count = Ok (rs, n) →
  n = Z.of_nat (length rs).
Proof.
  unfold Stream.fetch_page. intros H.
  apply bind_Ok in H as (response & Hresp & H).
  apply bind_Ok in H as (recs & Hrecs & H).
  apply bind_Ok in H as (rows & Hrows & H).
  apply bind_Ok in H as (rs' & Hrs & H).
  apply bind_Ok in H as (n' & Hn & H).
  injection H as <- <-.
  apply mapM_Ok, Forall2_length in Hrs. rewrite <- Hrs.
  by eapply len_iter.
Qed.

Lemma paginate_halts srv self now search_job record_count :
  ∀ fuel count records,
    Z.to_nat (total_of record_count - count) < fuel →
    ∃ r,
      Stream.paginate srv self now fuel search_job record_count count records
      = Some r
      ∧ halted srv self now search_job record_count r
      ∧ ∀ c rs, r = Ok (c, rs) →
          (c - Z.of_nat (length rs) = count - Z.of_nat (length records))%Z.
Proof.
  induction fuel as [| fuel IH]; intros count records Hfuel; [lia |].
  rewrite paginate_S.
  destruct (Py.int_lt count record_count) as [[] | e] eqn:Hlt.
  - pose proof (int_lt_total _ _ _ Hlt) as Htot.
    symmetry in Htot. apply Z.ltb_lt in Htot.
    destruct (Stream.fetch_page srv self now search_job count)
      as [[rs n] | e] eqn:Hpage.
    + pose proof (fetch_page_length _ _ _ _ _ _ _ Hpage) as Hn.
      destruct (0 <? n)%Z eqn:Hpos.
      * apply Z.ltb_lt in Hpos.
        destruct (IH (count + n)%Z (records ++ rs)) as (r & Hr & Hh & Hc);
          [lia |].
        exists r. split_and!; [done .. |].
        intros c rs' Heq. rewrite (Hc c rs' Heq), length_app. lia.
      * apply Z.ltb_ge in Hpos.
        assert (rs = []) as -> by (apply length_zero_iff_nil; lia).
        assert (n = 0%Z) as -> by (cbn in Hn; lia).
        eexists. split_and!; [done | by right |].
        intros c rs' [= <- <-]. by rewrite app_nil_r.
    + eexists. split_and!; [done .. |]. intros; discriminate.
  - eexists. split_and!; [done | by left |]. by intros c rs' [= <- <-].
  - eexists. split_and!; [done .. |]. intros; discriminate.
Qed.

(** C2: the pagination loop leaves after at most as many rounds as the
    reported total plus one, whatever the server answers: with an
    exception, or with the offset at or beyond the total, or after a page
    of zero rows.  The offset at the exit is the number of rows
    gathered. *)
Theorem pagination_terminates (srv : Server) (self : SearchJobStream)
    (now : string) (search_job record_count : json) (fuel : nat) :
  Z.to_nat (total_of record_count) < fuel →
  ∃ r,
    Stream.paginate srv self now fuel search_job record_count 0 [] = Some r
    ∧ halted srv self now search_job record_count r
    ∧ ∀ count records, r = Ok (count, records) →
        count = Z.of_nat (length records).
Proof.
  intros Hfuel.
  destruct (paginate_halts srv self now search_job record_count fuel 0 [])
    as (r & Hr & Hh & Hc); [by rewrite Z.sub_0_r |].
  exists r. split_and!; [done .. |].
  intros count records Heq. specialize (Hc count records Heq).
  cbn in Hc. lia.
Qed.

Lemma pagination_terminates_witness :
  ∃ r,
    Stream.paginate fifteen_rows (sample_stream "records")
      "2024-01-03 10:00:00.000000" 16 job1 (JNum 15) 0 []
    = Some r
    ∧ halted fifteen_rows (sample_stream "records")
        "2024-01-03 10:00:00.000000" job1 (JNum 15) r
    ∧ ∀ count records, r = Ok (count, records) →
        count = Z.of_nat (length records).
Proof.
  apply (pagination_terminates fifteen_rows (sample_stream "records")
           "2024-01-03 10:00:00.000000" job1 (JNum 15) 16).
  cbn. lia.
Defined.

(** The scenario of the fifteen rows: one request, fifteen rows. *)
Example fifteen_rows_one_call :
  ∃ records,
    Stream.paginate fifteen_rows (sample_stream "records")
      "2024-01-03 10:00:00.000000" 2 job1 (JNum 15) 0 []
    = Some (Ok (15%Z, records))
    ∧ length records = 15.
Proof. eexists. split; [by vm_compute | reflexivity]. Qed.

(** ** The polling loop *)

Lemma getitem_strip status k :
  k ≠ histogram → Py.getitem (strip status) k = Py.getitem status k.
Proof.
  intros Hk. destruct status; try done. cbn.
  by rewrite lookup_delete_ne.
Qed.

Lemma non_terminal_strip status :
  non_terminal status → non_terminal (strip status).
Proof.
  intros (st & Hst & Hd & Hc). exists st.
  by rewrite getitem_strip.
Qed.

Lemma in_state_strip status state :
  in_state status state → in_state (strip status) state.
Proof. unfold in_state. by rewrite getitem_strip. Qed.

Lemma delitem_histogram status :
  has_histogram status → Py.delitem status histogram = Ok (strip status).
Proof. intros (m & -> & [x Hx]). cbn. by rewrite Hx. Qed.

Lemma poll_S srv fuel search_job n status :
  Stream.poll srv (S fuel) search_job n status
  = match Py.getitem status "state" with
    | Raise e => Some (Raise e)
    | Ok st =>
        if Py.eq_str st DONE then Some (Ok status)
        else if Py.eq_str st CANCELLED then Some (Ok status)
        else
          match
            SumoLogic.search_job_status srv search_job (S n)
            ≫= λ status', Py.delitem status' histogram
          with
          | Raise e => Some (Raise e)
          | Ok status' => Stream.poll srv fuel search_job (S n) status'
          end
    end.
Proof. reflexivity. Qed.

Lemma poll_terminal srv fuel search_job n status state :
  in_state status state → state = DONE ∨ state = CANCELLED →
  Stream.poll srv (S fuel) search_job n status = Some (Ok status).
Proof.
  intros Hst Hstate. rewrite poll_S, Hst.
  by destruct Hstate as [-> | ->].
Qed.

Lemma poll_step srv fuel search_job n status status' :
  non_terminal status →
  SumoLogic.search_job_status srv search_job (S n) = Ok status' →
  has_histogram status' →
  Stream.poll srv (S fuel) search_job n status
  = Stream.poll srv fuel search_job (S n) (strip status').
Proof.
  intros (st & Hst & Hd & Hc) Hnext Hh.
  rewrite poll_S, Hst, Hd, Hc, Hnext. cbn.
  by rewrite (delitem_histogram _ Hh).
Qed.

Lemma poll_step_raise srv fuel search_job n status (m : gmap string json) :
  non_terminal status →
  SumoLogic.search_job_status srv search_job (S n) = Ok (JObj m) →
  m !! histogram = None →
  Stream.poll srv (S fuel) search_job n status
  = Some (Raise (KeyError histogram)).
Proof.
  intros (st & Hst & Hd & Hc) Hnext Hm.
  rewrite poll_S, Hst, Hd, Hc, Hnext. cbn. by rewrite Hm.
Qed.

(** [k] rounds of the loop over payloads that are not terminal and carry
    the histogram. *)
Lemma poll_advance srv search_job : ∀ k n status fuel,
  non_terminal status →
  (∀ i, 1 ≤ i ≤ k →
        ∃ s, SumoLogic.search_job_status srv search_job (n + i) = Ok s
             ∧ non_terminal s ∧ has_histogram s) →
  ∃ status',
    Stream.poll srv (k + fuel) search_job n status
    = Stream.poll srv fuel search_job (n + k) status'
    ∧ non_terminal status'.
Proof.
  induction k as [| k IH]; intros n status fuel Hnt Hall.
  - exists status. by rewrite Nat.add_0_r.
  - destruct (Hall 1) as (s & Hs & Hsnt & Hsh); [lia |].
    rewrite Nat.add_1_r in Hs.
    destruct (IH (S n) (strip s) fuel) as (status' & Heq & Hnt').
    + by apply non_terminal_strip.
    + intros i Hi. destruct (Hall (S i)) as (si & Hsi & ?); [lia |].
      exists si. by rewrite Nat.add_succ_comm.
    + exists status'. split; [| done].
      change (S k + fuel) with (S (k + fuel)).
      rewrite (poll_step _ _ _ _ _ s) by done.
      by rewrite Heq, Nat.add_succ_comm.
Qed.

Lemma search_records_from srv self now fuel search_job status0 :
  submitted srv self = Ok search_job →
  SumoLogic.search_job_status srv search_job 0 = Ok status0 →
  Stream.search_records srv self now fuel
  = match Stream.poll srv fuel search_job 0 status0 with
    | None => None
    | Some (Raise e) => Some (Raise e)
    | Some (Ok status) =>
        match Py.getitem status "state" with
        | Raise e => Some (Raise e)
        | Ok st =>
            if Py.eq_str st DONE then
              match Py.getitem status (Stream.count_key self) with
              | Raise e => Some (Raise e)
              | Ok record_count =>
                  match
                    Stream.paginate srv self now fuel search_job record_count
                      0 []
                  with
                  | None => None
                  | Some (Raise e) => Some (Raise e)
                  | Some (Ok (_, records)) => Some (Ok records)
                  end
              end
            else Some (Ok [])
        end
    end.
Proof.
  intros Hjob Hstatus. unfold Stream.search_records.
  change (conn_search_job (conn srv) (stream_query self)
            (start_date (stream_config self)) (end_date (stream_config self))
            (time_zone (stream_config self)) (stream_by_receipt_time self)
            (stream_auto_parsing_mode self))
    with (submitted srv self).
  rewrite Hjob. change (Ok ?a ≫= ?f) with (f a). cbv beta.
  change (conn_search_job_status (conn srv))
    with (SumoLogic.search_job_status srv).
  rewrite Hstatus. reflexivity.
Qed.

(** C3, amended: a run whose status requests are answered with payloads
    that are not terminal and then, on the [k]-th, with CANCELLED, yields
    no row and raises nothing, provided the payloads fetched inside the
    loop carry the key histogramBuckets. *)
Theorem cancelled_yields_nothing (srv : Server) (self : SearchJobStream)
    (now : string) (search_job : json) (k fuel : nat) :
  stream_query_type self ∈ ["messages"; "records"] →
  submitted srv self = Ok search_job →
  cancelled_at srv search_job k →
  histograms_upto srv search_job k →
  k < fuel →
  Stream.get_records srv self now fuel = Some (Ok []).
Proof.
  intros Hq Hjob [Hbefore (sk & Hsk & Hcancel)] Hhist Hfuel.
  unfold Stream.get_records. rewrite bool_decide_eq_true_2 by done.
  assert (∃ status, Stream.poll srv fuel search_job 0
                      (match k with
                       | O => sk
                       | S _ => match SumoLogic.search_job_status srv
                                        search_job 0 with
                                | Ok s => s
                                | Raise _ => JNull
                                end
                       end)
                    = Some (Ok status) ∧ in_state status CANCELLED)
    as (status & Hpoll & Hstatus).
  { destruct k as [| k].
    - exists sk. destruct fuel as [| fuel]; [lia |].
      split; [| done]. eapply poll_terminal; eauto.
    - destruct (Hbefore 0) as (s0 & Hs0 & Hnt0); [lia |]. rewrite Hs0.
      destruct (poll_advance srv search_job k 0 s0 (fuel - k)) as
        (s' & Heq & Hnt'); [done | |].
      + intros i Hi. destruct (Hbefore i) as (si & Hsi & Hnti); [lia |].
        exists si. split_and!; [done | done |]. apply (Hhist i); [lia | done].
      + replace (k + (fuel - k)) with fuel in Heq by lia.
        rewrite Heq. cbn [plus].
        destruct (fuel - k) as [| [| fuel']] eqn:Hf; [lia | lia |].
        rewrite (poll_step _ _ _ _ _ sk);
          [| done | done | apply (Hhist (S k)); [lia | done]].
        exists (strip sk). split; [| by apply in_state_strip].
        eapply poll_terminal; [by apply in_state_strip | by right]. }
  destruct k as [| k].
  - rewrite (search_records_from _ _ _ _ _ sk Hjob Hsk), Hpoll.
    unfold in_state in Hstatus. by rewrite Hstatus.
  - destruct (Hbefore 0) as (s0 & Hs0 & Hnt0); [lia |]. rewrite Hs0 in Hpoll.
    rewrite (search_records_from _ _ _ _ _ s0 Hjob Hs0), Hpoll.
    unfold in_state in Hstatus. by rewrite Hstatus.
Qed.

Lemma cancelled_yields_nothing_witness :
  Stream.get_records cancelled_run (sample_stream "messages")
    "2024-01-03 10:00:00.000000" 3
  = Some (Ok []).
Proof.
  apply (cancelled_yields_nothing cancelled_run (sample_stream "messages")
           "2024-01-03 10:00:00.000000" job1 2 3).
  - apply list_elem_of_here.
  - reflexivity.
  - split.
    + intros [| [| i]] Hi; [| | lia];
        (eexists; split; [reflexivity |]);
        (eexists; split; [reflexivity | by vm_compute]).
    + eexists. split; [reflexivity | by vm_compute].
  - intros [| [| [| i]]] s Hi Hs; [lia | | | lia];
      injection Hs as <-; (eexists; split; [reflexivity |]);
      by eexists.
  - lia.
Defined.

(** C3 fails as stated: the polled states of [cancelled_bare] are
    GATHERING, GATHERING, CANCELLED, and the run raises [KeyError] on the
    cancelled payload, which has no histogramBuckets; with no amount of
    fuel does it yield the empty sequence. *)
Lemma cancelled_counterexample :
  submitted cancelled_bare (sample_stream "messages") = Ok job1
  ∧ cancelled_at cancelled_bare job1 2
  ∧ Stream.get_records cancelled_bare (sample_stream "messages")
      "2024-01-03 10:00:00.000000" 3
    = Some (Raise (KeyError "histogramBuckets"))
  ∧ ∀ fuel,
      Stream.get_records cancelled_bare (sample_stream "messages")
        "2024-01-03 10:00:00.000000" fuel
      ≠ Some (Ok []).
Proof.
  split; [reflexivity |]. split; [| split; [by vm_compute |]].
  - split.
    + intros [| [| i]] Hi; [| | lia];
        (eexists; split; [reflexivity |]);
        (eexists; split; [reflexivity | by vm_compute]).
    + eexists. split; [reflexivity | by vm_compute].
  - intros [| [| [| fuel]]]; by vm_compute.
Qed.

Lemma poll_without_initial srv search_job : ∀ fuel n status,
  Stream.poll (without_initial_histogram srv) fuel search_job n status
  = Stream.poll srv fuel search_job n status.
Proof.
  induction fuel as [| fuel IH]; intros n status; [done |].
  rewrite !poll_S.
  change (SumoLogic.search_job_status (without_initial_histogram srv)
            search_job (S n))
    with (SumoLogic.search_job_status srv search_job (S n)).
  destruct (Py.getitem status "state") as [st |]; [| done].
  destruct (Py.eq_str st DONE); [done |].
  destruct (Py.eq_str st CANCELLED); [done |].
  by destruct (_ ≫= _).
Qed.

Lemma paginate_without_initial srv self now search_job record_count :
  ∀ fuel count records,
    Stream.paginate (without_initial_histogram srv) self now fuel search_job
      record_count count records
    = Stream.paginate srv self now fuel search_job record_count count records.
Proof.
  induction fuel as [| fuel IH]; intros count records; [done |].
  rewrite !paginate_S.
  change (Stream.fetch_page (without_initial_histogram srv))
    with (Stream.fetch_page srv).
  destruct (Py.int_lt count record_count) as [[] |]; [| done ..].
  destruct (Stream.fetch_page srv self now search_job count) as [[rs n] |];
    [| done].
  by destruct (0 <? n)%Z.
Qed.

(** The loop started on a payload, and started on the payload without
    its histogram: the same outcome, but for the payload itself when it is
    handed back. *)
Lemma poll_strip srv search_job fuel n status :
  Stream.poll srv fuel search_job n (strip status)
  = Stream.poll srv fuel search_job n status
  ∨ (Stream.poll srv fuel search_job n (strip status)
     = Some (Ok (strip status))
     ∧ Stream.poll srv fuel search_job n status = Some (Ok status)).
Proof.
  destruct fuel as [| fuel]; [by left |].
  rewrite !poll_S, getitem_strip by done.
  destruct (Py.getitem status "state") as [st |]; [| by left].
  destruct (Py.eq_str st DONE); [by right |].
  destruct (Py.eq_str st CANCELLED); [by right | by left].
Qed.

Lemma count_key_not_histogram self :
  stream_query_type self ∈ ["messages"; "records"] →
  Stream.count_key self ≠ histogram.
Proof.
  unfold Stream.count_key. rewrite !elem_of_cons, elem_of_nil.
  by intros [-> | [-> | []]].
Qed.

Lemma get_records_without_initial srv self now fuel :
  Stream.get_records (without_initial_histogram srv) self now fuel
  = Stream.get_records srv self now fuel.
Proof.
  unfold Stream.get_records. case_bool_decide as Hq; [| done].
  destruct (submitted srv self) as [search_job | e] eqn:Hjob.
  - destruct (SumoLogic.search_job_status srv search_job 0)
      as [status0 | e] eqn:Hs0.
    + assert (SumoLogic.search_job_status (without_initial_histogram srv)
                search_job 0 = Ok (strip status0)) as Hs0'.
      { unfold SumoLogic.search_job_status in *.
        destruct (Py.getitem search_job "id"); [| done].
        cbn in *. by rewrite Hs0. }
      rewrite (search_records_from _ _ _ _ search_job (strip status0))
        by done.
      rewrite (search_records_from srv _ _ _ search_job status0) by done.
      rewrite poll_without_initial.
      destruct (poll_strip srv search_job fuel 0 status0) as [-> | [-> ->]].
      * by destruct (Stream.poll srv fuel search_job 0 status0) as [[] |].
      * rewrite !getitem_strip by (done || by apply count_key_not_histogram).
        repeat case_match; try done;
          by rewrite paginate_without_initial in *; simplify_eq.
    + unfold Stream.search_records.
      change (conn_search_job (conn ?s) (stream_query self)
                (start_date (stream_config self))
                (end_date (stream_config self))
                (time_zone (stream_config self)) (stream_by_receipt_time self)
                (stream_auto_parsing_mode self))
        with (submitted s self).
      change (submitted (without_initial_histogram srv) self)
        with (submitted srv self).
      rewrite Hjob. change (Ok ?a ≫= ?f) with (f a). cbv beta.
      change (conn_search_job_status (conn ?s))
        with (SumoLogic.search_job_status s).
      rewrite Hs0.
      assert (SumoLogic.search_job_status (without_initial_histogram srv)
                search_job 0 = Raise e) as ->; [| done].
      unfold SumoLogic.search_job_status in *.
      destruct (Py.getitem search_job "id"); [| done].
      cbn in *. by rewrite Hs0.
  - unfold Stream.search_records.
    change (conn_search_job (conn ?s) (stream_query self)
              (start_date (stream_config self))
              (end_date (stream_config self))
              (time_zone (stream_config self)) (stream_by_receipt_time self)
              (stream_auto_parsing_mode self))
      with (submitted s self).
    change (submitted (without_initial_histogram srv) self)
      with (submitted srv self).
    by rewrite Hjob.
Qed.

(** A payload that the loop hands on after a round has no histogram. *)
Lemma poll_deletes srv search_job : ∀ fuel n status status',
  non_terminal status
  ∨ Py.getitem status histogram = Raise (KeyError histogram) →
  Stream.poll srv fuel search_job n status = Some (Ok status') →
  Py.getitem status' histogram = Raise (KeyError histogram).
Proof.
  induction fuel as [| fuel IH]; intros n status status' Hstatus Hpoll;
    [done |].
  rewrite poll_S in Hpoll.
  destruct (Py.getitem status "state") as [st |] eqn:Hst; [| done].
  destruct (Py.eq_str st DONE) eqn:Hd.
  { injection Hpoll as <-.
    destruct Hstatus as [(st' & Hst' & Hd' & _) | H]; [congruence | done]. }
  destruct (Py.eq_str st CANCELLED) eqn:Hc.
  { injection Hpoll as <-.
    destruct Hstatus as [(st' & Hst' & _ & Hc') | H]; [congruence | done]. }
  destruct (SumoLogic.search_job_status srv search_job (S n))
    as [next |]; [| done].
  change (Ok next ≫= ?f) with (f next) in Hpoll. cbv beta in Hpoll.
  destruct next as [| | | | | m]; try done.
  unfold Py.delitem in Hpoll.
  destruct (m !! histogram) eqn:Hm; [| done].
  eapply IH; [| exact Hpoll]. right. unfold Py.getitem.
  by rewrite lookup_delete_eq.
Qed.

(** C10: when the status requests before the [k]-th ([k] at least 1) are
    answered with payloads that are not terminal, and the [k]-th payload,
    whatever its state, has no key histogramBuckets, the run raises
    [KeyError] on it.  A payload that the loop has fetched and handed on
    has lost the key.  The first payload, fetched before the loop, may
    have the key or not: the run is the same. *)
Theorem loop_status_needs_histogram (srv : Server) (self : SearchJobStream)
    (now : string) (search_job : json) (k fuel : nat)
    (m : gmap string json) :
  stream_query_type self ∈ ["messages"; "records"] →
  submitted srv self = Ok search_job →
  (∀ i, i < k →
        ∃ s, SumoLogic.search_job_status srv search_job i = Ok s
             ∧ non_terminal s) →
  histograms_upto srv search_job (k - 1) →
  1 ≤ k →
  SumoLogic.search_job_status srv search_job k = Ok (JObj m) →
  m !! "histogramBuckets" = None →
  k ≤ fuel →
  Stream.get_records srv self now fuel
  = Some (Raise (KeyError "histogramBuckets"))
  ∧ (∀ fuel' n status status',
       non_terminal status →
       Stream.poll srv fuel' search_job n status = Some (Ok status') →
       Py.getitem status' "histogramBuckets"
       = Raise (KeyError "histogramBuckets"))
  ∧ (∀ fuel',
       Stream.get_records (without_initial_histogram srv) self now fuel'
       = Stream.get_records srv self now fuel').
Proof.
  intros Hq Hjob Hbefore Hhist Hk Hsk Hm Hfuel. split_and!.
  - unfold Stream.get_records. rewrite bool_decide_eq_true_2 by done.
    destruct k as [| k]; [lia |].
    destruct (Hbefore 0) as (s0 & Hs0 & Hnt0); [lia |].
    rewrite (search_records_from _ _ _ _ _ s0 Hjob Hs0).
    destruct (poll_advance srv search_job k 0 s0 (fuel - k))
      as (s' & Heq & Hnt'); [done | |].
    + intros i Hi. destruct (Hbefore i) as (si & Hsi & Hnti); [lia |].
      exists si. split_and!; [done | done |].
      apply (Hhist i); [lia | done].
    + replace (k + (fuel - k)) with fuel in Heq by lia.
      rewrite Heq. cbn [plus].
      destruct (fuel - k) as [| fuel'] eqn:Hf; [lia |].
      by rewrite (poll_step_raise _ _ _ _ _ m).
  - intros fuel' n status status' Hnt Hpoll.
    eapply poll_deletes; [by left | done].
  - intros fuel'. apply get_records_without_initial.
Qed.

Lemma loop_status_needs_histogram_witness :
  Stream.get_records cancelled_bare (sample_stream "messages")
    "2024-01-03 10:00:00.000000" 2
  = Some (Raise (KeyError "histogramBuckets")).
Proof.
  apply (loop_status_needs_histogram cancelled_bare (sample_stream "messages")
           "2024-01-03 10:00:00.000000" job1 2 2
           {[ "state" := JStr CANCELLED ]}).
  - apply list_elem_of_here.
  - reflexivity.
  - intros [| [| i]] Hi; [| | lia];
      (eexists; split; [reflexivity |]);
      (eexists; split; [reflexivity | by vm_compute]).
  - intros [| [| i]] s Hi Hs; [lia | | cbn in Hi; lia].
    injection Hs as <-. eexists. split; [reflexivity | by eexists].
  - lia.
  - reflexivity.
  - reflexivity.
  - lia.
Defined.

(** The first payload needs no histogram: a job that is done at the first
    status request, with a payload without the key, is read to the end. *)
Example initial_status_without_histogram :
  Stream.get_records
    (scripted job1
       (status_script [bare_status DONE {[ "recordCount" := JNum 0 ]}])
       no_results no_metrics)
    (sample_stream "records") "2024-01-03 10:00:00.000000" 1
  = Some (Ok []).
Proof. by vm_compute. Qed.

(** ** Metrics *)

(** The probe of a metrics table, [get_metrics_query_fields], looks at
    the error list: it raises with the [errors] object of the response
    when the list is not empty, and returns the time series of the first
    query result otherwise. *)
Lemma metrics_fields_check srv query from_time to_time quantization rollup
    timeshift (response errors : json) (errs : list json) :
  SumoLogic.metrics_query srv query from_time to_time quantization rollup
    timeshift = Ok response →
  Py.getitem response "errors" = Ok errors →
  Py.getitem errors "errors" = Ok (JArr errs) →
  SumoLogic.get_metrics_query_fields srv query from_time to_time quantization
    rollup timeshift
  = match errs with
    | [] => SumoLogic.time_series response
    | _ :: _ => Raise (RequestError errors)
    end.
Proof.
  intros Hresp Herrors Herrs. unfold SumoLogic.get_metrics_query_fields.
  rewrite Hresp. change (Ok ?a ≫= ?f) with (f a). cbv beta.
  rewrite Herrors. change (Ok ?a ≫= ?f) with (f a). cbv beta.
  rewrite Herrs. by destruct errs.
Qed.

(** The metrics branch of [get_records] never looks at the error list:
    it yields what iterating over the time series of the first query
    result gives, as it is. *)
Lemma metrics_records_direct srv self now fuel :
  stream_query_type self = "metrics" →
  Stream.get_records srv self now fuel
  = Some (SumoLogic.metrics_query srv (stream_query self)
            (start_date (stream_config self)) (end_date (stream_config self))
            (stream_quantization self) (stream_rollup self)
            (stream_timeshift self)
          ≫= λ response,
            SumoLogic.time_series response ≫= λ records, Py.iter records).
Proof.
  intros Hq. unfold Stream.get_records. rewrite Hq.
  rewrite bool_decide_eq_false_2 by set_solver.
  by rewrite bool_decide_eq_true_2.
Qed.

(** C4, at a failing input: with an error in the error list, the probe
    raises with the error payload, and [get_records] raises nothing and
    yields the time series. *)
Theorem metrics_errors_not_raised :
  SumoLogic.get_metrics_query_fields failing_metrics "cpu"
    "2024-01-01T00:00:00" "2024-01-02T00:00:00" None None None
  = Raise (RequestError
             (JObj {[ "errors" :=
                        JArr [JObj {[ "message" := JStr "bad query" ]}] ]}))
  ∧ Stream.get_records failing_metrics (sample_stream "metrics")
      "2024-01-03 10:00:00.000000" 0
    = Some (Ok [series_a]).
Proof. split; by vm_compute. Qed.

(** With an empty error list the time series are yielded as they are,
    without the metadata columns. *)
Example metrics_rows_as_they_are :
  Stream.get_records
    (scripted job1 (status_script []) no_results
       (λ _, Ok (JObj {[ "errors" := JObj {[ "errors" := JArr [] ]};
                         "queryResult" :=
                           JArr [JObj {[ "timeSeriesList" :=
                                           JObj {[ "timeSeries" :=
                                                     JArr [series_a] ]} ]}] ]})))
    (sample_stream "metrics") "2024-01-03 10:00:00.000000" 0
  = Some (Ok [series_a]).
Proof. by vm_compute. Qed.

(** * Further properties *)

(** ** The endpoint *)

Lemma substring_at_length (s t : string) (m : nat) :
  String.substring (String.length s) m (s +:+ t) = String.substring 0 m t.
Proof. induction s as [| c s IH]; [done | exact IH]. Qed.

Lemma length_append (s t : string) :
  String.length (s +:+ t) = String.length s + String.length t.
Proof. induction s as [| c s IH]; [done | exact (f_equal S IH)]. Qed.

Lemma last_char_slash (base : string) : Py.last_char (base +:+ "/") = "/".
Proof.
  unfold Py.last_char. rewrite length_append. cbn.
  replace (String.length base + 1 - 1) with (String.length base) by lia.
  by rewrite substring_at_length.
Qed.

(** X1: with a root URL that ends in a slash, the schema of no table is
    inferred: the constructor of the SDK raises before any request is
    made, whatever the server would answer. *)
Theorem trailing_slash_rejected (srv : Server) (config : Config)
    (table_config : TableConfig) (base : string) :
  root_url config = base +:+ "/" →
  TapSumoLogic.get_schema_for_table srv config table_config
  = Raise (Exception "Endpoint should not end with a slash character").
Proof.
  intros Hurl. unfold TapSumoLogic.get_schema_for_table,
    TapSumoLogic.endpoint_check.
  by rewrite Hurl, last_char_slash.
Qed.

Lemma trailing_slash_rejected_witness :
  TapSumoLogic.get_schema_for_table two_rows
    {| access_id := "id"; access_key := "key";
       root_url := "https://api.eu.sumologic.com/api/";
       start_date := "2024-01-01T00:00:00";
       end_date := "2024-01-02T00:00:00"; time_zone := "UTC";
       tables := [] |}
    (sample_table "records" [])
  = Raise (Exception "Endpoint should not end with a slash character").
Proof.
  apply (trailing_slash_rejected two_rows _ (sample_table "records" [])
           "https://api.eu.sumologic.com/api").
  reflexivity.
Defined.

(** ** The probe *)

(** X2: the probe asks for the status of its job twice at most: what the
    server would answer to a third or a later status request has no
    bearing on the fields it returns. *)
Theorem probe_polls_twice (srv : Server) (later : json → nat → result json)
    (q from_time to_time time_zone : string) (by_receipt_time : bool)
    (auto_parsing_mode query_type : string) :
  SumoLogic.get_search_job_fields (after_second_status srv later) q from_time
    to_time time_zone by_receipt_time auto_parsing_mode query_type
  = SumoLogic.get_search_job_fields srv q from_time to_time time_zone
      by_receipt_time auto_parsing_mode query_type.
Proof.
  unfold SumoLogic.get_search_job_fields.
  change (SumoLogic.search_job (after_second_status srv later))
    with (SumoLogic.search_job srv).
  destruct (SumoLogic.search_job srv q from_time to_time time_zone
              by_receipt_time auto_parsing_mode) as [job |]; [| done].
  change (Ok job ≫= ?f) with (f job). cbv beta.
  assert (∀ n, n ≤ 1 →
               SumoLogic.search_job_status (after_second_status srv later)
                 job n
               = SumoLogic.search_job_status srv job n) as Hstatus.
  { intros [| [| n]] Hn; [done | done | lia]. }
  rewrite (Hstatus 0) by lia.
  destruct (SumoLogic.search_job_status srv job 0) as [s0 |]; [| done].
  change (Ok s0 ≫= ?f) with (f s0). cbv beta.
  assert (SumoLogic.probe_poll (after_second_status srv later) 2 job 0 s0
          = SumoLogic.probe_poll srv 2 job 0 s0) as ->; [| done].
  cbn [SumoLogic.probe_poll]. rewrite (Hstatus 1) by lia.
  destruct (Py.getitem s0 "state") as [st |]; [| done]. cbn.
  destruct (Py.eq_str st DONE); [done |].
  destruct (Py.eq_str st CANCELLED); [done |].
  by destruct (SumoLogic.search_job_status srv job 1).
Qed.
(** X3: when the job is not finished at the first status request, the
    probe waits once, asks once more, and goes on with the state it then
    finds: the fields of one row are fetched when that state is done or
    still gathering, and the field list is empty, without an error, for
    any other state. *)
Theorem probe_after_two_polls (srv : Server)
    (q from_time to_time time_zone : string) (by_receipt_time : bool)
    (auto_parsing_mode query_type : string) (search_job s0 s1 st : json) :
  SumoLogic.search_job srv q from_time to_time time_zone by_receipt_time
    auto_parsing_mode = Ok search_job →
  SumoLogic.search_job_status srv search_job 0 = Ok s0 →
  non_terminal s0 →
  SumoLogic.search_job_status srv search_job 1 = Ok s1 →
  Py.getitem s1 "state" = Ok st →
  SumoLogic.get_search_job_fields srv q from_time to_time time_zone
    by_receipt_time auto_parsing_mode query_type
  = if Py.eq_str st DONE || Py.eq_str st GATHERING
    then SumoLogic.search_job_records srv search_job query_type (Some 1%Z) 0%Z
         ≫= λ response, Py.getitem response "fields"
    else Ok (JArr []).
Proof.
  intros Hjob Hs0 (st0 & Hst0 & Hd0 & Hc0) Hs1 Hst.
  unfold SumoLogic.get_search_job_fields.
  rewrite Hjob. change (Ok ?a ≫= ?f) with (f a). cbv beta.
  rewrite Hs0. change (Ok ?a ≫= ?f) with (f a). cbv beta.
  assert (SumoLogic.probe_poll srv 2 search_job 0 s0 = Ok s1) as ->.
  { cbn [SumoLogic.probe_poll]. rewrite Hst0. cbn. rewrite Hd0, Hc0, Hs1.
    cbn. rewrite Hst. cbn. by repeat case_match. }
  change (Ok ?a ≫= ?f) with (f a). cbv beta.
  by rewrite Hst.
Qed.

Lemma probe_after_two_polls_witness :
  SumoLogic.get_search_job_fields slow_probe "error | limit 1"
    "2024-01-01T00:00:00" "2024-01-02T00:00:00" "UTC" false "intelligent"
    "messages"
  = Ok (JArr [descriptor {| fd_name := "host"; fd_type := "string";
                            fd_key := true |}]).
Proof.
  rewrite (probe_after_two_polls slow_probe "error | limit 1"
             "2024-01-01T00:00:00" "2024-01-02T00:00:00" "UTC" false
             "intelligent" "messages" job1 (status_of GATHERING ∅)
             (status_of GATHERING ∅) (JStr GATHERING)).
  - reflexivity.
  - reflexivity.
  - reflexivity.
  - eexists. split; [reflexivity | by vm_compute].
  - reflexivity.
  - reflexivity.
Defined.

(** X4: a probe whose job is cancelled at the first status request
    raises nothing and fetches no row: the inferred schema of the table
    has the three window columns as its only properties. *)
Theorem cancelled_probe_schema (srv : Server) (config : Config)
    (table_config : TableConfig) (search_job s0 : json) :
  query_type table_config ∈ ["records"; "messages"] →
  Py.last_char (root_url config) ≠ "/" →
  probe_submitted srv config table_config = Ok search_job →
  SumoLogic.search_job_status srv search_job 0 = Ok s0 →
  in_state s0 CANCELLED →
  TapSumoLogic.get_schema_for_table srv config table_config
  = Ok (window_schema (query_type table_config)).
Proof.
  intros Hq Hurl Hjob Hs0 Hcancel.
  unfold TapSumoLogic.get_schema_for_table, TapSumoLogic.endpoint_check,
    SumoLogic.get_sumologic_fields.
  rewrite !bool_decide_eq_true_2, bool_decide_eq_false_2 by done.
  change (Ok ?a ≫= ?f) with (f a). cbv beta.
  unfold SumoLogic.get_search_job_fields.
  change (SumoLogic.search_job srv (query table_config +:+ " | limit 1")
            (start_date config) (end_date config) (time_zone config)
            (by_receipt_time table_config) (auto_parsing_mode table_config))
    with (probe_submitted srv config table_config).
  rewrite Hjob. change (Ok ?a ≫= ?f) with (f a). cbv beta.
  rewrite Hs0. change (Ok ?a ≫= ?f) with (f a). cbv beta.
  unfold in_state in Hcancel.
  assert (SumoLogic.probe_poll srv 2 search_job 0 s0 = Ok s0) as ->.
  { cbn [SumoLogic.probe_poll]. by rewrite Hcancel. }
  change (Ok ?a ≫= ?f) with (f a). cbv beta.
  rewrite Hcancel. change (Ok ?a ≫= ?f) with (f a). cbv beta.
  change (Py.eq_str (JStr CANCELLED) DONE || Py.eq_str (JStr CANCELLED) GATHERING)
    with false. cbv iota.
  change (Ok ?a ≫= ?f) with (f a). cbv beta.
  unfold TapSumoLogic.schema_of_fields, window_schema.
  rewrite bool_decide_eq_true_2 by done.
  change (Py.iter (JArr [])) with (Ok (@nil json)).
  change (Ok ?a ≫= ?f) with (f a). cbv beta.
  change (Py.foldM TapSumoLogic.add_field (∅, []) [])
    with (Ok (∅ : gmap string json, @nil string)).
  change (Ok ?a ≫= ?f) with (f a). cbv beta zeta.
  by case_bool_decide.
Qed.

Lemma cancelled_probe_schema_witness :
  TapSumoLogic.get_schema_for_table cancelled_probe
    (sample_config [sample_table "messages" []])
    (sample_table "messages" [])
  = Ok (window_schema "messages").
Proof.
  apply (cancelled_probe_schema cancelled_probe
           (sample_config [sample_table "messages" []])
           (sample_table "messages" []) job1 (status_of CANCELLED ∅)).
  - apply list_elem_of_further, list_elem_of_here.
  - by vm_compute.
  - reflexivity.
  - reflexivity.
  - reflexivity.
Defined.

(** ** Discovery of a metrics table *)

(** X5: the schema of a metrics table.  The probe posts the query as it
    is configured; an answer with a non-empty error list makes discovery
    raise with the error object, and with an empty list the schema is the
    fixed one of the two columns metricDefinition and points, provided
    that the answer holds the time series of a first query result, which
    are looked up and not used. *)
Theorem metrics_discovery (srv : Server) (config : Config)
    (table_config : TableConfig) (response errors : json)
    (errs : list json) :
  query_type table_config = "metrics" →
  Py.last_char (root_url config) ≠ "/" →
  metrics_probe srv config table_config = Ok response →
  Py.getitem response "errors" = Ok errors →
  Py.getitem errors "errors" = Ok (JArr errs) →
  TapSumoLogic.get_schema_for_table srv config table_config
  = match errs with
    | [] => SumoLogic.time_series response ≫= λ _, Ok metrics_schema
    | _ :: _ => Raise (RequestError errors)
    end.
Proof.
  intros Hq Hurl Hresp Herrors Herrs.
  unfold TapSumoLogic.get_schema_for_table, TapSumoLogic.endpoint_check,
    SumoLogic.get_sumologic_fields, TapSumoLogic.schema_of_fields.
  rewrite Hq.
  rewrite !(bool_decide_eq_false_2 ("metrics" ∈ ["records"; "messages"]))
    by set_solver.
  rewrite (bool_decide_eq_true_2 ("metrics" = "metrics")) by done.
  rewrite bool_decide_eq_false_2 by done.
  change (Ok ?a ≫= ?f) with (f a). cbv beta.
  rewrite (metrics_fields_check srv _ _ _ _ _ _ response errors errs
             Hresp Herrors Herrs).
  by destruct errs.
Qed.

Lemma metrics_discovery_witness :
  TapSumoLogic.get_schema_for_table failing_metrics
    (sample_config [sample_table "metrics" []]) (sample_table "metrics" [])
  = Raise (RequestError
             (JObj {[ "errors" :=
                        JArr [JObj {[ "message" := JStr "bad query" ]}] ]})).
Proof.
  eapply (metrics_discovery failing_metrics
            (sample_config [sample_table "metrics" []])
            (sample_table "metrics" []) _ _
            [JObj {[ "message" := JStr "bad query" ]}]).
  - reflexivity.
  - by vm_compute.
  - reflexivity.
  - reflexivity.
  - reflexivity.
Defined.

(** ** The streams of the tables *)

(** X6: a table whose query type is none of records, messages and
    metrics makes discovery raise the ValueError that names the type,
    whatever the server would answer, when the step before the test of
    the type does not raise: the schema file loads, genson accepts the
    schema of the configuration, or, for a schema that is inferred, the
    root URL does not end with a slash.  The probe of such a table makes
    no request. *)
Theorem invalid_query_type_rejected (srv : Server)
    (load_schema_file : string → result json)
    (genson_schema : json → result json)
    (config : Config) (stream : TableConfig) :
  query_type stream ∉ ["records"; "messages"; "metrics"] →
  resolves load_schema_file genson_schema config stream →
  TapSumoLogic.discover_stream srv load_schema_file genson_schema config
    stream
  = Raise (invalid_query_type (query_type stream)).
Proof.
  intros Hq Hres. unfold TapSumoLogic.discover_stream.
  rewrite (bool_decide_eq_false_2 _ Hq).
  assert (Py.last_char (root_url config) ≠ "/" →
          TapSumoLogic.get_schema_for_table srv config stream = Ok (JObj ∅))
    as Hinfer.
  { intros Hurl.
    unfold TapSumoLogic.get_schema_for_table, TapSumoLogic.endpoint_check,
      SumoLogic.get_sumologic_fields, TapSumoLogic.schema_of_fields.
    rewrite !(bool_decide_eq_false_2 (query_type stream ∈ _)) by set_solver.
    rewrite (bool_decide_eq_false_2 (query_type stream = _)) by set_solver.
    by rewrite bool_decide_eq_false_2. }
  unfold resolves in Hres.
  destruct (schema stream) as [[| | | path | | m] |];
    try (by rewrite (Hinfer Hres)); by destruct Hres as [s ->].
Qed.

Lemma invalid_query_type_rejected_witness :
  TapSumoLogic.discover_stream cancelled_probe no_file Ok
    (sample_config [sample_table "logs" []]) (sample_table "logs" [])
  = Raise (ValueError
             "Invalid query_type: logs. Must be one of 'records' or 'messages'.").
Proof.
  apply (invalid_query_type_rejected cancelled_probe no_file Ok
           (sample_config [sample_table "logs" []]) (sample_table "logs" [])).
  - apply (bool_decide_unpack _). by vm_compute.
  - by vm_compute.
Defined.

(** X7: a table with a supplied schema, read from a file or given in the
    configuration, needs keys from somewhere: with no primary keys
    configured and no key_properties entry in the schema, discovery
    raises the KeyError of that entry. *)
Theorem supplied_schema_needs_keys (srv : Server)
    (load_schema_file : string → result json)
    (genson_schema : json → result json)
    (config : Config) (stream : TableConfig) (m : gmap string json) :
  query_type stream ∈ ["records"; "messages"; "metrics"] →
  supplied load_schema_file genson_schema stream (JObj m) →
  m !! "key_properties" = None →
  primary_keys stream = [] →
  TapSumoLogic.discover_stream srv load_schema_file genson_schema config
    stream
  = Raise (KeyError "key_properties").
Proof.
  intros Hq Hs Hm Hkeys. unfold TapSumoLogic.discover_stream.
  rewrite (bool_decide_eq_true_2 _ Hq), Hkeys.
  unfold supplied in Hs.
  destruct (schema stream) as [[| | | path | | m'] |]; try done; rewrite Hs;
    change (Ok ?a ≫= ?f) with (f a); cbv beta;
    unfold TapSumoLogic.stream_keys, Py.getitem; by rewrite Hm.
Qed.

Lemma supplied_schema_needs_keys_witness :
  TapSumoLogic.discover_stream cancelled_probe no_file Ok
    (sample_config [inline_table "records" [] host_schema])
    (inline_table "records" [] host_schema)
  = Raise (KeyError "key_properties").
Proof.
  apply (supplied_schema_needs_keys cancelled_probe no_file Ok
           (sample_config [inline_table "records" [] host_schema])
           (inline_table "records" [] host_schema)
           {[ "type" := JStr "object";
              "properties" :=
                JObj {[ "host" :=
                          TapSumoLogic.type_schema ["null"; "string"] ]} ]}).
  - apply list_elem_of_here.
  - reflexivity.
  - by vm_compute.
  - reflexivity.
Defined.




Lemma mapM_Raise {A B} (f : A → result B) (l1 l2 : list A) (x : A) (e : exn) :
  Forall (λ y, ∃ b, f y = Ok b) l1 →
  f x = Raise e →
  mapM f (l1 ++ x :: l2) = Raise e.
Proof.
  intros Hl1 Hx. induction Hl1 as [| y l1 [b Hb] _ IH]; cbn.
  - by rewrite Hx.
  - rewrite Hb. change (Ok ?a ≫= ?f) with (f a). cbv beta. by rewrite IH.
Qed.

(** X9: discovery is all or nothing.  The exception of the first table
    that fails is the exception of discovery: the tables after it are
    not looked at, and the streams of the tables before it are lost. *)
Theorem discovery_stops_at_first_failure (srv : Server)
    (load_schema_file : string → result json)
    (genson_schema : json → result json)
    (config : Config) (before after : list TableConfig)
    (table : TableConfig) (e : exn) :
  tables config = before ++ table :: after →
  Forall (λ t, ∃ stream,
            TapSumoLogic.discover_stream srv load_schema_file genson_schema
              config t = Ok stream) before →
  TapSumoLogic.discover_stream srv load_schema_file genson_schema config table
  = Raise e →
  TapSumoLogic.discover_streams srv load_schema_file genson_schema config
  = Raise e.
Proof.
  intros Htables Hbefore Htable. unfold TapSumoLogic.discover_streams.
  rewrite Htables. by apply mapM_Raise.
Qed.

Lemma discovery_stops_at_first_failure_witness :
  TapSumoLogic.discover_streams host_probe no_file Ok
    (sample_config [sample_table "messages" []; sample_table "logs" [];
                    sample_table "records" []])
  = Raise (ValueError
             "Invalid query_type: logs. Must be one of 'records' or 'messages'.").
Proof.
  apply (discovery_stops_at_first_failure host_probe no_file Ok
           (sample_config [sample_table "messages" []; sample_table "logs" [];
                           sample_table "records" []])
           [sample_table "messages" []] [sample_table "records" []]
           (sample_table "logs" [])).
  - reflexivity.
  - apply Forall_cons_2; [| apply Forall_nil_2].
    eexists. vm_compute. reflexivity.
  - reflexivity.
Defined.
(** ** Key properties and properties *)

Lemma dom_inferred_properties fds :
  dom (inferred_properties fds)
  = list_to_set (fd_name <$> fds) ∪ {[ "start_date"; "end_date"; "time_zone" ]}.
Proof.
  unfold inferred_properties. rewrite !dom_insert_L, dom_properties_of.
  set_solver.
Qed.

Lemma keys_of_names fds k : k ∈ keys_of fds → k ∈ fd_name <$> fds.
Proof.
  unfold keys_of. rewrite !list_elem_of_fmap.
  intros (fd & -> & Hfd). exists fd. split; [done |].
  by apply list_elem_of_filter in Hfd as [_ ?].
Qed.

(** X10: in an inferred schema of a records or messages table, every key
    property is one of the properties, except for the two message keys
    _messagetime and _messageid: a messages schema always names them as
    key properties, and has them among its properties only when the
    probe reports fields of these names. *)
Theorem key_properties_declared (query_type : string)
    (fds : list FieldDescriptor) (fields : list json) :
  query_type ∈ ["records"; "messages"] →
  Forall2 describes fds fields →
  ∃ (properties : gmap string json) (keys : list string),
    TapSumoLogic.schema_of_fields query_type (JArr fields)
    = Ok (JObj {[ "type" := JStr "object";
                  "properties" := JObj properties;
                  "key_properties" := JArr (JStr <$> keys) ]})
    ∧ (∀ k, k ∈ keys →
            k ∈ dom properties
            ∨ (query_type = "messages" ∧ k ∈ message_keys))
    ∧ (query_type = "messages" →
       ∀ k, k ∈ message_keys →
            k ∈ keys ∧ (k ∈ dom properties ↔ k ∈ fd_name <$> fds)).
Proof.
  intros Hq Hfds. eexists _, _. split; [by apply schema_of_fields_search |].
  rewrite dom_inferred_properties. split.
  - intros k. rewrite !elem_of_app. intros [[Hk | Hk] | Hk].
    + left. apply keys_of_names in Hk. set_solver.
    + left. set_solver.
    + case_bool_decide; [by right | by apply elem_of_nil in Hk].
  - intros -> k Hk. rewrite bool_decide_eq_true_2 by done. split.
    + rewrite !elem_of_app. by right.
    + unfold message_keys in Hk. set_solver.
Qed.

Lemma key_properties_declared_witness :
  ∃ (properties : gmap string json) (keys : list string),
    TapSumoLogic.schema_of_fields "messages"
      (JArr [descriptor {| fd_name := "host"; fd_type := "string";
                           fd_key := true |}])
    = Ok (JObj {[ "type" := JStr "object";
                  "properties" := JObj properties;
                  "key_properties" := JArr (JStr <$> keys) ]})
    ∧ "_messageid" ∈ keys
    ∧ ("_messageid" ∈ dom properties ↔ "_messageid" ∈ ["host"]).
Proof.
  destruct (key_properties_declared "messages"
              [{| fd_name := "host"; fd_type := "string"; fd_key := true |}]
              [descriptor {| fd_name := "host"; fd_type := "string";
                             fd_key := true |}])
    as (properties & keys & Hschema & _ & Hmsg).
  - apply list_elem_of_further, list_elem_of_here.
  - repeat constructor. apply describes_descriptor.
  - exists properties, keys. split; [exact Hschema |].
    apply (Hmsg eq_refl "_messageid").
    apply list_elem_of_further, list_elem_of_here.
Defined.

(** ** Whole runs *)

Lemma mapM_Forall2 {A B} (f : A → result B) (l : list A) (k : list B) :
  Forall2 (λ x y, f x = Ok y) l k → mapM f l = Ok k.
Proof.
  induction 1 as [| x y l k Hx _ IH]; [done |].
  cbn. rewrite Hx. change (Ok ?a ≫= ?f) with (f a). cbv beta. by rewrite IH.
Qed.

Lemma take_page {A} (page : nat) (l : list A) :
  take (length (take page l)) l = take page l.
Proof.
  rewrite length_take. destruct (decide (page ≤ length l)).
  - by rewrite Nat.min_l.
  - rewrite Nat.min_r by lia. by rewrite !take_ge by lia.
Qed.

Lemma fetch_page_serves srv self now search_job rows srows page (c : nat) :
  serves srv self search_job rows page →
  mapM (Stream.shape self now) rows = Ok srows →
  c ≤ length rows →
  Stream.fetch_page srv self now search_job (Z.of_nat c)
  = Ok (take page (drop c srows),
        Z.of_nat (length (take page (drop c rows)))).
Proof.
  intros Hserves Hshape Hc. destruct (Hserves c Hc) as (response & Hr & Hrecs).
  unfold Stream.fetch_page.
  change (conn_search_job_records (conn srv))
    with (SumoLogic.search_job_records srv).
  rewrite Hr. change (Ok ?a ≫= ?f) with (f a). cbv beta.
  rewrite Hrecs. change (Ok ?a ≫= ?f) with (f a). cbv beta.
  change (Py.iter (JArr ?l)) with (Ok l).
  change (Ok ?a ≫= ?f) with (f a). cbv beta.
  rewrite (mapM_Forall2 _ _ (take page (drop c srows))); [done |].
  apply mapM_Ok in Hshape. by apply Forall2_take, Forall2_drop.
Qed.

Lemma paginate_serves srv self now search_job rows srows page (total : Z) :
  serves srv self search_job rows page →
  mapM (Stream.shape self now) rows = Ok srows →
  0 < page →
  ∀ fuel (c : nat) records,
    c ≤ length rows →
    length rows - c < fuel →
    ∃ c' : nat,
      Stream.paginate srv self now fuel search_job (JNum total) (Z.of_nat c)
        records
      = Some (Ok (Z.of_nat c', records ++ take (c' - c) (drop c srows)))
      ∧ c ≤ c' ≤ length rows
      ∧ ((total ≤ Z.of_nat c')%Z ∨ c' = length rows)
      ∧ ((total ≤ Z.of_nat c)%Z → c' = c).
Proof.
  intros Hserves Hshape Hpage.
  assert (length srows = length rows) as Hlen.
  { apply mapM_Ok in Hshape. symmetry. by eapply Forall2_length. }
  induction fuel as [| fuel IH]; intros c records Hc Hfuel; [lia |].
  rewrite paginate_S. cbn [Py.int_lt].
  destruct (Z.ltb_spec (Z.of_nat c) total) as [Hlt | Hge].
  - rewrite (fetch_page_serves _ _ _ _ rows srows page c) by done.
    destruct (Z.ltb_spec 0 (Z.of_nat (length (take page (drop c rows)))))
      as [Hn | Hn].
    + set (n := length (take page (drop c rows))) in *.
      assert (c + n ≤ length rows) as Hcn.
      { subst n. rewrite length_take, length_drop. lia. }
      destruct (IH (c + n) (records ++ take page (drop c srows)))
        as (c' & Heq & Hc' & Hend & _); [lia | lia |].
      exists c'. replace (Z.of_nat c + Z.of_nat n)%Z with (Z.of_nat (c + n))
        by lia.
      rewrite Heq. split_and!; [| lia | lia | done | lia].
      do 3 f_equal. rewrite <- app_assoc. f_equal.
      assert (take page (drop c srows) = take n (drop c srows)) as ->.
      { subst n. rewrite <- (take_page page (drop c srows)).
        by rewrite !length_take, !length_drop, Hlen. }
      rewrite <- drop_drop, take_take_drop. f_equal. lia.
    + exists c. rewrite length_take, length_drop in Hn.
      assert (c = length rows) as Hfull by lia.
      split_and!; [| lia | lia | by right | done].
      do 3 f_equal. rewrite Nat.sub_diag.
      by rewrite drop_ge, take_nil by lia.
  - exists c. split_and!; [| lia | lia | by left | done].
    by rewrite Nat.sub_diag, take_0, app_nil_r.
Qed.

Lemma poll_reaches srv search_job k fuel status0 sk state :
  (∀ i, i < k →
        ∃ s, SumoLogic.search_job_status srv search_job i = Ok s
             ∧ non_terminal s) →
  SumoLogic.search_job_status srv search_job 0 = Ok status0 →
  SumoLogic.search_job_status srv search_job k = Ok sk →
  in_state sk state → state = DONE ∨ state = CANCELLED →
  histograms_upto srv search_job k →
  k < fuel →
  ∃ status,
    Stream.poll srv fuel search_job 0 status0 = Some (Ok status)
    ∧ in_state status state
    ∧ ∀ key, key ≠ histogram → Py.getitem status key = Py.getitem sk key.
Proof.
  intros Hbefore Hs0 Hsk Hstate Hterminal Hhist Hfuel.
  destruct k as [| k].
  - assert (status0 = sk) as -> by congruence.
    exists sk. destruct fuel as [| fuel]; [lia |].
    split_and!; [by eapply poll_terminal | done | done].
  - destruct (Hbefore 0) as (s0 & Hs0' & Hnt0); [lia |].
    assert (s0 = status0) as -> by congruence.
    destruct (poll_advance srv search_job k 0 status0 (fuel - k)) as
      (s' & Heq & Hnt'); [done | |].
    + intros i Hi. destruct (Hbefore i) as (si & Hsi & Hnti); [lia |].
      exists si. split_and!; [done | done |]. apply (Hhist i); [lia | done].
    + replace (k + (fuel - k)) with fuel in Heq by lia.
      rewrite Heq. cbn [plus].
      destruct (fuel - k) as [| [| fuel']] eqn:Hf; [lia | lia |].
      rewrite (poll_step _ _ _ _ _ sk);
        [| done | done | apply (Hhist (S k)); [lia | done]].
      exists (strip sk). split_and!.
      * eapply poll_terminal; [by apply in_state_strip | done].
      * by apply in_state_strip.
      * intros key Hkey. by apply getitem_strip.
Qed.

Lemma search_records_done srv self now search_job k fuel sk :
  stream_query_type self ∈ ["messages"; "records"] →
  submitted srv self = Ok search_job →
  done_at srv search_job k sk →
  histograms_upto srv search_job k →
  k < fuel →
  Stream.get_records srv self now fuel
  = match Py.getitem sk (Stream.count_key self) with
    | Raise e => Some (Raise e)
    | Ok record_count =>
        match
          Stream.paginate srv self now fuel search_job record_count 0 []
        with
        | None => None
        | Some (Raise e) => Some (Raise e)
        | Some (Ok (_, records)) => Some (Ok records)
        end
    end.
Proof.
  intros Hq Hjob (Hbefore & Hsk & Hdone) Hhist Hfuel.
  unfold Stream.get_records. rewrite bool_decide_eq_true_2 by done.
  assert (∃ status0, SumoLogic.search_job_status srv search_job 0 = Ok status0)
    as [status0 Hs0].
  { destruct k as [| k]; [by exists sk |].
    destruct (Hbefore 0) as (s0 & Hs0 & _); [lia | by exists s0]. }
  destruct (poll_reaches srv search_job k fuel status0 sk DONE)
    as (status & Hpoll & Hstate & Hkeys); [done .. | by left | done | done |].
  rewrite (search_records_from _ _ _ _ _ status0 Hjob Hs0), Hpoll.
  unfold in_state in Hstate. rewrite Hstate.
  change (Py.eq_str (JStr DONE) DONE) with true. cbv iota.
  by rewrite Hkeys by by apply count_key_not_histogram.
Qed.

Lemma paginate_boundary srv self now search_job rows srows page (total : Z) :
  serves srv self search_job rows page →
  mapM (Stream.shape self now) rows = Ok srows →
  0 < page →
  ∀ fuel (j0 : nat) records,
    j0 * page ≤ length rows →
    (∀ i : nat, i < j0 → (Z.of_nat (i * page) < total)%Z) →
    length rows - j0 * page < fuel →
    ∃ c' j : nat,
      Stream.paginate srv self now fuel search_job (JNum total)
        (Z.of_nat (j0 * page)) records
      = Some (Ok (Z.of_nat c',
                  records ++ take (c' - j0 * page) (drop (j0 * page) srows)))
      ∧ c' = Nat.min (j * page) (length rows)
      ∧ j0 * page ≤ c'
      ∧ ((total ≤ Z.of_nat c')%Z ∨ c' = length rows)
      ∧ (∀ i : nat, i * page < c' → (Z.of_nat (i * page) < total)%Z).
Proof.
  intros Hserves Hshape Hpage.
  assert (length srows = length rows) as Hlen.
  { apply mapM_Ok in Hshape. symmetry. by eapply Forall2_length. }
  induction fuel as [| fuel IH]; intros j0 records Hc Hbefore Hfuel; [lia |].
  assert (∀ i : nat, i * page < j0 * page → (Z.of_nat (i * page) < total)%Z)
    as Hbelow.
  { intros i Hi. apply Hbefore. nia. }
  set (c := j0 * page) in *.
  rewrite paginate_S. cbn [Py.int_lt].
  destruct (Z.ltb_spec (Z.of_nat c) total) as [Hlt | Hge].
  - rewrite (fetch_page_serves _ _ _ _ rows srows page c) by done.
    destruct (Z.ltb_spec 0 (Z.of_nat (length (take page (drop c rows)))))
      as [Hn | Hn].
    + rewrite length_take, length_drop in Hn.
      rewrite length_take, length_drop.
      destruct (decide (page ≤ length rows - c)) as [Hfull | Hpart].
      * rewrite Nat.min_l by done.
        replace (Z.of_nat c + Z.of_nat page)%Z with (Z.of_nat (S j0 * page))
          by (subst c; lia).
        destruct (IH (S j0) (records ++ take page (drop c srows)))
          as (c' & j & Heq & Hc' & Hle & Hend & Hmin).
        { subst c. lia. }
        { intros i Hi. destruct (decide (i = j0)) as [-> | ?]; [done |].
          apply Hbefore. lia. }
        { subst c. lia. }
        exists c', j. rewrite Heq.
        split_and!; [| done | subst c; lia | done | done].
        do 3 f_equal. rewrite <- app_assoc. f_equal.
        replace (S j0 * page) with (c + page) by (subst c; lia).
        rewrite <- drop_drop, take_take_drop. f_equal. subst c. lia.
      * rewrite Nat.min_r by lia.
        replace (Z.of_nat c + Z.of_nat (length rows - c))%Z
          with (Z.of_nat (length rows)) by lia.
        destruct (paginate_serves srv self now search_job rows srows page
                    total Hserves Hshape Hpage fuel (length rows)
                    (records ++ take page (drop c srows)))
          as (c' & Heq & Hc' & Hend & _); [lia | lia |].
        assert (c' = length rows) as -> by lia.
        exists (length rows), (S j0). rewrite Heq.
        split_and!; [| subst c; lia | lia | by right |].
        -- do 3 f_equal. rewrite Nat.sub_diag, take_0, app_nil_r.
           f_equal. rewrite !take_ge; [done | |];
             rewrite length_drop; lia.
        -- intros i Hi. destruct (decide (i = j0)) as [-> | Hi0]; [done |].
           apply Hbefore. subst c. nia.
    + rewrite length_take, length_drop in Hn.
      assert (c = length rows) as Hfull by lia.
      exists c, j0. split_and!; [| subst c; lia | lia | by right | done].
      do 3 f_equal. rewrite Nat.sub_diag.
      by rewrite drop_ge, take_nil by lia.
  - exists c, j0. split_and!; [| subst c; lia | lia | by left | done].
    by rewrite Nat.sub_diag, take_0, app_nil_r.
Qed.

(** X11: a run against a server that pages honestly.  When the job is
    done, and the results endpoint hands out the rows of the job from
    any offset on, a page of them at a time, the run yields a prefix of
    these rows, each merged with the metadata columns, in their order
    and none twice.  The prefix ends at a page boundary or with the last
    row; there the reported count is reached or the rows are used up;
    and no page boundary before it reaches the count: the prefix ends at
    the first page boundary at or beyond the reported count, or with the
    last row when that comes first.  With a reported count that is the
    number of rows, the run yields every row. *)
Theorem honest_run_yields_rows (srv : Server) (self : SearchJobStream)
    (now : string) (search_job status : json) (k fuel page : nat)
    (total : Z) (rows srows : list json) :
  stream_query_type self ∈ ["messages"; "records"] →
  submitted srv self = Ok search_job →
  done_at srv search_job k status →
  histograms_upto srv search_job k →
  Py.getitem status (Stream.count_key self) = Ok (JNum total) →
  serves srv self search_job rows page →
  0 < page →
  mapM (Stream.shape self now) rows = Ok srows →
  k < fuel → length rows < fuel →
  ∃ n j : nat,
    Stream.get_records srv self now fuel = Some (Ok (take n srows))
    ∧ n = Nat.min (j * page) (length rows)
    ∧ ((total ≤ Z.of_nat n)%Z ∨ n = length rows)
    ∧ (∀ i : nat, i * page < n → (Z.of_nat (i * page) < total)%Z)
    ∧ (total = Z.of_nat (length rows) → take n srows = srows).
Proof.
  intros Hq Hjob Hdone Hhist Hcount Hserves Hpage Hshape Hk Hfuel.
  rewrite (search_records_done srv self now search_job k fuel status)
    by done.
  rewrite Hcount.
  destruct (paginate_boundary srv self now search_job rows srows page total
              Hserves Hshape Hpage fuel 0 [])
    as (n & j & Heq & Hn & _ & Hend & Hmin); [cbn; lia | lia | cbn; lia |].
  change (Z.of_nat (0 * page)) with 0%Z in Heq. rewrite Heq.
  change (0 * page) with 0. rewrite Nat.sub_0_r, drop_0, app_nil_l.
  exists n, j. split_and!; [done | done | done | done |].
  intros ->. apply take_ge.
  apply mapM_Ok, Forall2_length in Hshape. lia.
Qed.

Lemma honest_run_yields_rows_witness :
  Stream.get_records short_count_run (sample_stream "records")
    "2024-01-03 10:00:00.000000" 4
  = Some (mapM (Stream.shape (sample_stream "records")
                  "2024-01-03 10:00:00.000000")
            [row_a; row_b]).
Proof.
  destruct (honest_run_yields_rows short_count_run (sample_stream "records")
              "2024-01-03 10:00:00.000000" job1
              (status_of DONE {[ "recordCount" := JNum 1 ]}) 2 4 2 1
              [row_a; row_b; row_c]
              (match mapM (Stream.shape (sample_stream "records")
                             "2024-01-03 10:00:00.000000")
                       [row_a; row_b; row_c] with
               | Ok l => l
               | Raise _ => []
               end))
    as (n & j & Hrun & Hn & Hend & Hmin & _).
  - apply list_elem_of_further, list_elem_of_here.
  - reflexivity.
  - split_and!.
    + intros [| [| i]] Hi; [| | lia];
        (eexists; split; [reflexivity |]);
        (eexists; split; [reflexivity | by vm_compute]).
    + reflexivity.
    + reflexivity.
  - intros [| [| [| i]]] s Hi Hs; [lia | | | lia];
      injection Hs as <-; (eexists; split; [reflexivity |]); by eexists.
  - reflexivity.
  - intros [| [| [| [| offset]]]] Hoffset; [| | | | cbn in Hoffset; lia];
      (eexists; split; [reflexivity | reflexivity]).
  - lia.
  - reflexivity.
  - lia.
  - cbn. lia.
  - assert (n = 2) as ->.
    { pose proof (Hmin 1) as H1. cbn [length] in Hn, Hend.
      destruct j as [| [| j]]; cbn in Hn; lia. }
    rewrite Hrun. reflexivity.
Defined.

(** X12: the polling loop of a run has no bound.  Against a job that
    never reaches a terminal state, the run has not left the loop after
    any number of rounds: it neither yields nor raises. *)
Theorem polling_has_no_bound (srv : Server) (self : SearchJobStream)
    (now : string) (search_job : json) (fuel : nat) :
  stream_query_type self ∈ ["messages"; "records"] →
  submitted srv self = Ok search_job →
  never_terminal srv search_job →
  Stream.get_records srv self now fuel = None.
Proof.
  intros Hq Hjob Hnever.
  unfold Stream.get_records. rewrite bool_decide_eq_true_2 by done.
  destruct (Hnever 0) as (s0 & Hs0 & Hnt0 & _).
  rewrite (search_records_from _ _ _ _ _ s0 Hjob Hs0).
  destruct (poll_advance srv search_job fuel 0 s0 0) as (s' & Heq & _);
    [done | intros i _; apply Hnever |].
  rewrite Nat.add_0_r in Heq. by rewrite Heq.
Qed.

Lemma polling_has_no_bound_witness :
  Stream.get_records endless_run (sample_stream "messages")
    "2024-01-03 10:00:00.000000" 50
  = None.
Proof.
  apply (polling_has_no_bound endless_run (sample_stream "messages")
           "2024-01-03 10:00:00.000000" job1 50).
  - apply list_elem_of_here.
  - reflexivity.
  - intros i. eexists. split; [reflexivity |]. split.
    + eexists. split; [reflexivity | by vm_compute].
    + eexists. split; [reflexivity | by eexists].
Defined.

(** X13: a status request that fails ends the run with its exception:
    nothing is yielded, and the loop does not ask again. *)
Theorem status_failure_ends_run (srv : Server) (self : SearchJobStream)
    (now : string) (search_job : json) (k fuel : nat) (e : exn) :
  stream_query_type self ∈ ["messages"; "records"] →
  submitted srv self = Ok search_job →
  status_fails_at srv search_job k e →
  histograms_upto srv search_job k →
  k < fuel →
  Stream.get_records srv self now fuel = Some (Raise e).
Proof.
  intros Hq Hjob [Hbefore Hfail] Hhist Hfuel.
  unfold Stream.get_records. rewrite bool_decide_eq_true_2 by done.
  destruct k as [| k].
  - unfold Stream.search_records.
    change (conn_search_job (conn srv) (stream_query self)
              (start_date (stream_config self))
              (end_date (stream_config self))
              (time_zone (stream_config self)) (stream_by_receipt_time self)
              (stream_auto_parsing_mode self))
      with (submitted srv self).
    rewrite Hjob. change (Ok ?a ≫= ?f) with (f a). cbv beta.
    change (conn_search_job_status (conn srv))
      with (SumoLogic.search_job_status srv).
    by rewrite Hfail.
  - destruct (Hbefore 0) as (s0 & Hs0 & Hnt0); [lia |].
    rewrite (search_records_from _ _ _ _ _ s0 Hjob Hs0).
    destruct (poll_advance srv search_job k 0 s0 (fuel - k)) as
      (s' & Heq & Hnt'); [done | |].
    + intros i Hi. destruct (Hbefore i) as (si & Hsi & Hnti); [lia |].
      exists si. split_and!; [done | done |]. apply (Hhist i); [lia | done].
    + replace (k + (fuel - k)) with fuel in Heq by lia.
      rewrite Heq. cbn [plus].
      destruct (fuel - k) as [| fuel'] eqn:Hf; [lia |].
      rewrite poll_S. destruct Hnt' as (st & -> & -> & ->).
      by rewrite Hfail.
Qed.

Lemma status_failure_ends_run_witness :
  Stream.get_records broken_run (sample_stream "messages")
    "2024-01-03 10:00:00.000000" 3
  = Some (Raise (HTTPError (JStr "job not found"))).
Proof.
  apply (status_failure_ends_run broken_run (sample_stream "messages")
           "2024-01-03 10:00:00.000000" job1 2 3).
  - apply list_elem_of_here.
  - reflexivity.
  - split.
    + intros [| [| i]] Hi; [| | lia];
        (eexists; split; [reflexivity |]);
        (eexists; split; [reflexivity | by vm_compute]).
    + reflexivity.
  - intros [| [| [| i]]] s Hi Hs; [lia | | by vm_compute in Hs | lia].
    injection Hs as <-. eexists. split; [reflexivity | by eexists].
  - lia.
Defined.

(** X14: a finished job that reports a count of zero, or a negative one,
    yields nothing, and its results are not asked for: the run is the
    same whatever the results endpoint would answer. *)
Theorem empty_job_yields_nothing (srv : Server) (self : SearchJobStream)
    (now : string) (search_job status : json) (k fuel : nat) (total : Z) :
  stream_query_type self ∈ ["messages"; "records"] →
  submitted srv self = Ok search_job →
  done_at srv search_job k status →
  histograms_upto srv search_job k →
  Py.getitem status (Stream.count_key self) = Ok (JNum total) →
  (total ≤ 0)%Z →
  k < fuel →
  Stream.get_records srv self now fuel = Some (Ok []).
Proof.
  intros Hq Hjob Hdone Hhist Hcount Htotal Hfuel.
  rewrite (search_records_done srv self now search_job k fuel status)
    by done.
  rewrite Hcount. destruct fuel as [| fuel]; [lia |].
  rewrite paginate_S. cbn [Py.int_lt].
  by destruct (Z.ltb_spec 0 total); [lia |].
Qed.

Lemma empty_job_yields_nothing_witness :
  Stream.get_records empty_run (sample_stream "records")
    "2024-01-03 10:00:00.000000" 1
  = Some (Ok []).
Proof.
  apply (empty_job_yields_nothing empty_run (sample_stream "records")
           "2024-01-03 10:00:00.000000" job1
           (status_of DONE {[ "recordCount" := JNum 0 ]}) 0 1 0).
  - apply list_elem_of_further, list_elem_of_here.
  - reflexivity.
  - split_and!; [intros i Hi; lia | reflexivity | reflexivity].
  - intros i s Hi. lia.
  - reflexivity.
  - lia.
  - lia.
Defined.

(** X15: the count is read under the key of the stream's query type,
    messageCount or recordCount.  A finished job whose payload has no
    entry under that key ends the run with the KeyError of the key, and
    nothing is yielded. *)
Theorem missing_count_raises (srv : Server) (self : SearchJobStream)
    (now : string) (search_job : json) (m : gmap string json)
    (k fuel : nat) :
  stream_query_type self ∈ ["messages"; "records"] →
  submitted srv self = Ok search_job →
  done_at srv search_job k (JObj m) →
  histograms_upto srv search_job k →
  m !! Stream.count_key self = None →
  k < fuel →
  Stream.get_records srv self now fuel
  = Some (Raise (KeyError (Stream.count_key self))).
Proof.
  intros Hq Hjob Hdone Hhist Hcount Hfuel.
  rewrite (search_records_done srv self now search_job k fuel (JObj m))
    by done.
  unfold Py.getitem. by rewrite Hcount.
Qed.

Lemma missing_count_raises_witness :
  Stream.get_records empty_run (sample_stream "messages")
    "2024-01-03 10:00:00.000000" 1
  = Some (Raise (KeyError "messageCount")).
Proof.
  apply (missing_count_raises empty_run (sample_stream "messages")
           "2024-01-03 10:00:00.000000" job1
           (<["state" := JStr DONE]>
              (<["histogramBuckets" := JArr []]>
                 {[ "recordCount" := JNum 0 ]})) 0 1).
  - apply list_elem_of_here.
  - reflexivity.
  - split_and!; [intros i Hi; lia | reflexivity | reflexivity].
  - intros i s Hi. lia.
  - by vm_compute.
  - lia.
Defined.
(** ** Metrics runs *)

(** X16: the configured time zone has no effect on a metrics stream.
    The request of the run does not carry it, and the rows are yielded
    without the metadata columns, so neither the time zone nor the time
    of the run changes what is yielded; and no polling takes place, so
    the run returns at once. *)
Theorem metrics_run_ignores_time_zone (srv : Server) (self : SearchJobStream)
    (now now' : string) (fuel fuel' : nat) (tz : string) :
  stream_query_type self = "metrics" →
  Stream.get_records srv (with_time_zone self tz) now' fuel'
  = Stream.get_records srv self now fuel
  ∧ Stream.get_records srv self now fuel ≠ None.
Proof.
  intros Hq.
  rewrite (metrics_records_direct srv self now fuel Hq).
  by rewrite (metrics_records_direct srv (with_time_zone self tz) now' fuel' Hq).
Qed.

Lemma metrics_run_ignores_time_zone_witness :
  Stream.get_records failing_metrics
    (with_time_zone (sample_stream "metrics") "Europe/Berlin")
    "2024-01-04 10:00:00.000000" 0
  = Some (Ok [series_a]).
Proof.
  destruct (metrics_run_ignores_time_zone failing_metrics
              (sample_stream "metrics") "2024-01-03 10:00:00.000000"
              "2024-01-04 10:00:00.000000" 0 0 "Europe/Berlin" eq_refl)
    as [-> _].
  reflexivity.
Defined.
